(** * ERA5 Monthly Aggregates -- AOI Climate Processor

    A shallow embedding of [advanced_era5_analyses.js] and the properties of
    its aggregation engine.

    The script is a client of the Earth Engine platform: every function of
    the script is embedded as a Rocq function of the same name, and the
    platform calls it makes ([ee.Image], [ee.ImageCollection], [ee.Filter],
    [ee.List], ...) are embedded in module [EE] as total functions over an
    explicit raster model.  Client-side JavaScript values and coercions are
    in module [JS]. *)

From Stdlib Require Import ZArith QArith Qround String Ascii DecimalString DecimalZ List Lia.
From stdpp Require Import gmap strings list fin_maps.

Set Default Proof Using "Type".

(* ===================================================================== *)
(** * Client-side JavaScript values *)
(* ===================================================================== *)

Module JS.

(** The primitive values a user parameter or an argument of the script
    can hold.  Numbers are the integers (years, months, zoom levels) the
    script handles on the client side. *)
Inductive value : Type :=
| Undefined
| Null
| Bool (b : bool)
| Num (z : Z)
| Str (s : string).

#[global] Instance value_eq_dec : EqDecision value.
Proof. solve_decision. Defined.

(** [Number.MAX_SAFE_INTEGER]: up to this magnitude a JavaScript number
    holds every integer exactly. *)
Definition MAX_SAFE_INTEGER : Z := 2 ^ 53 - 1.

(** [Number::toString] on an integer: plain decimal digits, with a
    leading minus sign below zero.  This is what JavaScript prints for the
    integers up to [MAX_SAFE_INTEGER] in magnitude; above it a number no
    longer holds every integer, and from 1e21 on it prints in exponent
    form, which is not represented here. *)
Definition number_to_string (z : Z) : string :=
  NilZero.string_of_int (Z.to_int z).

(** [ToString]. *)
Definition to_string (v : value) : string :=
  match v with
  | Undefined => "undefined"
  | Null => "null"
  | Bool true => "true"
  | Bool false => "false"
  | Num z => number_to_string z
  | Str s => s
  end.

(** [s + v] with a string on the left: string concatenation after
    [ToString] of the right operand. *)
Definition concat (s : string) (v : value) : string := s +:+ to_string v.

(** [===]: no coercion, equal only at the same type and value. *)
Definition strict_eq (a b : value) : bool := bool_decide (a = b).

(** [String.prototype.toLowerCase] on the ASCII range: ['A'..'Z'] map to
    ['a'..'z'], every other byte is kept. *)
Definition lower_ascii (c : ascii) : ascii :=
  let n := nat_of_ascii c in
  if (65 <=? n)%nat && (n <=? 90)%nat then ascii_of_nat (n + 32) else c.

Fixpoint toLowerCase (s : string) : string :=
  match s with
  | EmptyString => EmptyString
  | String c r => String (lower_ascii c) (toLowerCase r)
  end.

(** [Array.prototype.join('')]: the elements' strings glued together,
    [undefined] and [null] contributing the empty string. *)
Definition join_elem (v : value) : string :=
  match v with
  | Undefined | Null => EmptyString
  | _ => to_string v
  end.

Fixpoint join (parts : list value) : string :=
  match parts with
  | [] => EmptyString
  | v :: r => join_elem v +:+ join r
  end.

(** [ToBoolean]: the falsy values are [undefined], [null], [false], [0]
    and the empty string. *)
Definition truthy (v : value) : bool :=
  match v with
  | Undefined | Null => false
  | Bool b => b
  | Num z => negb (z =? 0)%Z
  | Str s => negb (String.eqb s EmptyString)
  end.

(** [a || b] *)
Definition or (a b : value) : value := if truthy a then a else b.

(** [array[i]] on an array of strings: [undefined] outside the array. *)
Definition index (l : list string) (i : Z) : value :=
  if (i <? 0)%Z then Undefined
  else match l !! Z.to_nat i with
       | Some s => Str s
       | None => Undefined
       end.

(** [obj[key]] on an object literal, given as its key-value pairs in the
    order written: the last pair with the key, none when the key is
    missing. *)
Definition get {A : Type} (key : string) (obj : list (string * A)) : option A :=
  fold_left (fun acc kv => if String.eqb (fst kv) key then Some (snd kv) else acc) obj None.

(** [Object.keys(obj)] of an object literal without repeated keys. *)
Definition keys {A : Type} (obj : list (string * A)) : list string := map fst obj.

End JS.

(* ===================================================================== *)
(** * Utilities of the script *)
(* ===================================================================== *)

(** [function pad2(m) { return (m < 10 ? '0' : '') + m; }] *)
Definition pad2 (m : Z) : string :=
  JS.concat (if (m <? 10)%Z then "0" else EmptyString) (JS.Num m).

(** [MONTH_NAMES] *)
Definition MONTH_NAMES : list string :=
  ["Jan"; "Feb"; "Mar"; "Apr"; "May"; "Jun";
   "Jul"; "Aug"; "Sep"; "Oct"; "Nov"; "Dec"].

(** The user parameters at the head of the script. *)
Record Params : Type := {
  AOI_ASSET_ID : string;
  START_YEAR : Z;
  END_YEAR : Z;
  AVERAGING_METRIC : JS.value;
  DRIVE_FOLDER : string;
  nativeScale : Q;
  MAP_ZOOM : Z
}.

(** The parameters as the repository ships them. *)
Definition default_params : Params := {|
  AOI_ASSET_ID := "projects/ee-franklinparedes75/assets/Cojedes_Guarico";
  START_YEAR := 1990;
  END_YEAR := 2020;
  AVERAGING_METRIC := JS.Str "mean";
  DRIVE_FOLDER := "EE_ERA5_Monthly";
  nativeScale := 5000;
  MAP_ZOOM := 6
|}.

(** [function getClimMetric()]:
    [var metric = ('' + AVERAGING_METRIC).toLowerCase();
     return (metric === 'median') ? 'median' : 'mean';] *)
Definition getClimMetric (P : Params) : string :=
  let metric := JS.toLowerCase (JS.concat EmptyString (AVERAGING_METRIC P)) in
  if JS.strict_eq (JS.Str metric) (JS.Str "median") then "median" else "mean".

(* ===================================================================== *)
(** * The Earth Engine platform *)
(* ===================================================================== *)

(** Modelled from the spec: the platform primitives the script calls are
    not part of the repository.  They follow the collaborator interface of
    the specification (filtering by calendar field, pixel-wise temporal
    reduction, areal reduction returning a number or null) on an explicit
    raster model: a raster is the list of the samples of a fixed pixel grid,
    a masked (no data) sample being [None]; a geometry is the set of the
    grid pixels it covers.  Following the specification, a reduction over
    zero images is a well-defined image without data, and reading a value
    that is not there gives null.  Resampling to a requested scale is not
    modelled: [scale], [bestEffort] and [maxPixels] are carried and do not
    change the grid.

    Limits of the model.  Samples are exact rationals: the rounding of the
    platform's floating point is not represented.  The functions are total
    and raise no error: selecting a band an image does not have (a fatal
    missing-band error in the specification) leaves the band out, and names
    that do not match the bands in number are paired as far as they go.
    What the platform puts in the metadata of an image it computes is not
    specified either; the model gives it none, and the script sets or
    copies the properties it relies on afterwards. *)
Module EE.

(** Server-side values: property values of images and features, entries of
    dictionaries. *)
Inductive value : Type :=
| VNull
| VBool (b : bool)
| VNum (q : Q)
| VStr (s : string).

(** A client-side value sent to the platform. *)
Definition encode (v : JS.value) : value :=
  match v with
  | JS.Undefined | JS.Null => VNull
  | JS.Bool b => VBool b
  | JS.Num z => VNum (inject_Z z)
  | JS.Str s => VStr s
  end.

(** [ee.Number(n)] of a client-side number. *)
Definition Number (z : Z) : value := VNum (inject_Z z).

(** Equality of values as [ee.Filter.eq] tests it. *)
Definition value_eqb (a b : value) : bool :=
  match a, b with
  | VNull, VNull => true
  | VBool x, VBool y => Bool.eqb x y
  | VNum x, VNum y => Qeq_bool x y
  | VStr x, VStr y => String.eqb x y
  | _, _ => false
  end.

Abbreviation Raster := (list (option Q)).

Abbreviation Geometry := (gset nat).

Record Image : Type := mkImage {
  bands : list (string * Raster);
  properties : gmap string value
}.

Abbreviation ImageCollection := (list Image).

Record Feature : Type := mkFeature {
  feature_geometry : option Geometry;
  feature_properties : gmap string value
}.

Abbreviation FeatureCollection := (list Feature).

(** ** Lists *)

(** [ee.List.sequence(start, end)]: the integers from [start] to [end]
    inclusive, ascending; empty when [end < start]. *)
Definition List_sequence (start end_ : Z) : list Z :=
  map (fun i => (start + Z.of_nat i)%Z) (seq 0 (Z.to_nat (end_ - start + 1))).

(** ** Dates *)

Definition MS_PER_DAY : Z := 86400000.

(** Days since 1970-01-01 of a proleptic Gregorian date. *)
Definition days_from_civil (y m d : Z) : Z :=
  let y' := (if m <=? 2 then y - 1 else y)%Z in
  let era := (y' / 400)%Z in
  let yoe := (y' - era * 400)%Z in
  let mp := (if m <=? 2 then m + 9 else m - 3)%Z in
  let doy := ((153 * mp + 2) / 5 + d - 1)%Z in
  let doe := (yoe * 365 + yoe / 4 - yoe / 100 + doy)%Z in
  (era * 146097 + doe - 719468)%Z.

(** Year and month of a day count since 1970-01-01. *)
Definition civil_from_days (z0 : Z) : Z * Z :=
  let z := (z0 + 719468)%Z in
  let era := (z / 146097)%Z in
  let doe := (z - era * 146097)%Z in
  let yoe := ((doe - doe / 1460 + doe / 36524 - doe / 146096) / 365)%Z in
  let doy := (doe - (365 * yoe + yoe / 4 - yoe / 100))%Z in
  let mp := ((5 * doy + 2) / 153)%Z in
  let m := (if mp <? 10 then mp + 3 else mp - 9)%Z in
  let y := (yoe + era * 400)%Z in
  ((if m <=? 2 then y + 1 else y)%Z, m).

(** [ee.Date.fromYMD(y, m, d)] in milliseconds since the epoch (UTC). *)
Definition Date_fromYMD (y m d : Z) : Z := (days_from_civil y m d * MS_PER_DAY)%Z.

(** [date.advance(n, 'day')] *)
Definition Date_advance_day (n : Z) (t : Z) : Z := (t + n * MS_PER_DAY)%Z.

(** The calendar field ['year'] or ['month'] of a timestamp. *)
Definition calendar_field (field : string) (t : Z) : option Z :=
  let ym := civil_from_days (t / MS_PER_DAY) in
  if String.eqb field "year" then Some (fst ym)
  else if String.eqb field "month" then Some (snd ym)
  else None.

(** ** Elements and their properties *)

(** [element.get(key)] on an image. *)
Definition Image_get (key : string) (img : Image) : option value :=
  properties img !! key.

(** [image.set(key, v)] *)
Definition Image_set (key : string) (v : value) (img : Image) : Image :=
  mkImage (bands img) (<[key := v]> (properties img)).

(** The acquisition time ['system:time_start'] in whole milliseconds. *)
Definition time_start (img : Image) : option Z :=
  match Image_get "system:time_start" img with
  | Some (VNum q) => Some (Qfloor q)
  | _ => None
  end.

(** [dst.copyProperties(src, keys)]: the listed properties that [src] has
    are written onto [dst]. *)
Definition Element_copyProperties (src : Image) (keys : list string) (dst : Image) : Image :=
  mkImage (bands dst)
    (fold_left (fun acc k =>
       match properties src !! k with
       | Some v => <[k := v]> acc
       | None => acc
       end) keys (properties dst)).

(** ** Filters *)

Inductive Filter : Type :=
| Filter_calendarRange (start end_ : Z) (field : string)
| Filter_eq (name : string) (v : value).

(** Does an image pass the filter?  A calendar range with [end < start]
    wraps around. *)
Definition Filter_passes (f : Filter) (img : Image) : bool :=
  match f with
  | Filter_calendarRange s e field =>
      match time_start img with
      | Some t =>
          match calendar_field field t with
          | Some c =>
              if (s <=? e)%Z then (s <=? c)%Z && (c <=? e)%Z
              else (s <=? c)%Z || (c <=? e)%Z
          | None => false
          end
      | None => false
      end
  | Filter_eq name v =>
      match Image_get name img with
      | Some w => value_eqb w v
      | None => false
      end
  end.

(** [ic.filter(f)] *)
Definition ImageCollection_filter (f : Filter) (ic : ImageCollection) : ImageCollection :=
  List.filter (Filter_passes f) ic.

(** [ic.filterDate(start, end)]: start inclusive, end exclusive. *)
Definition ImageCollection_filterDate (start end_ : Z) (ic : ImageCollection) : ImageCollection :=
  List.filter (fun img =>
    match time_start img with
    | Some t => (start <=? t)%Z && (t <? end_)%Z
    | None => false
    end) ic.

(** [ic.first()], null for an empty collection. *)
Definition ImageCollection_first (ic : ImageCollection) : option Image := head ic.

(** [ic.map(f)] *)
Definition ImageCollection_map (f : Image -> Image) (ic : ImageCollection) : ImageCollection :=
  map f ic.

(** ** Bands *)

(** The raster of the first band called [name]. *)
Definition band_lookup (name : string) (img : Image) : option Raster :=
  snd <$> List.find (fun b => String.eqb (fst b) name) (bands img).

(** [image.select(names)]: the named bands, in the order asked for.  A
    name the image has no band for is left out, where the specification
    has a missing-band error: the model has no error path. *)
Definition Image_select (names : list string) (img : Image) : Image :=
  mkImage (omap (fun n => pair n <$> band_lookup n img) names) (properties img).

(** [ic.select(names)] *)
Definition ImageCollection_select (names : list string) (ic : ImageCollection) : ImageCollection :=
  map (Image_select names) ic.

(** [image.rename(names)]: the bands take the new names by position.
    With as many names as bands this is the renaming; what happens
    otherwise is not specified, and the model pairs names and bands as far
    as both go. *)
Definition Image_rename (names : list string) (img : Image) : Image :=
  mkImage (zip names (snd <$> bands img)) (properties img).

(** A function applied to every sample that holds data. *)
Definition Raster_map (f : Q -> Q) (r : Raster) : Raster := map (option_map f) r.

(** [image.multiply(c)] and [image.subtract(c)] with a constant: every
    band sample by sample, in exact arithmetic.  The model gives the result
    no properties (the specification does not say which ones the platform
    keeps); the converter copies the acquisition time back itself. *)
Definition Image_multiply (c : Q) (img : Image) : Image :=
  mkImage (map (fun b => (fst b, Raster_map (fun v => (v * c)%Q) (snd b))) (bands img)) ∅.

Definition Image_subtract (c : Q) (img : Image) : Image :=
  mkImage (map (fun b => (fst b, Raster_map (fun v => (v - c)%Q) (snd b))) (bands img)) ∅.

(** [ee.Image.cat(images)]: the bands of all the images in one image, on
    the metadata of the first. *)
Definition Image_cat (imgs : list Image) : Image :=
  mkImage (concat (bands <$> imgs))
    (match imgs with
     | [] => ∅
     | i :: _ => properties i
     end).

(** [image.clip(geometry)]: samples outside the geometry are masked. *)
Definition Image_clip (g : Geometry) (img : Image) : Image :=
  mkImage
    (map (fun b => (fst b, imap (fun p v => if decide (p ∈ g) then v else None) (snd b)))
       (bands img))
    (properties img).

(** ** Reducers *)

Inductive Reducer : Type :=
| Reducer_sum
| Reducer_mean
| Reducer_median.

Fixpoint Qsum (l : list Q) : Q :=
  match l with
  | [] => 0%Q
  | x :: r => (x + Qsum r)%Q
  end.

Fixpoint Qinsert (x : Q) (l : list Q) : list Q :=
  match l with
  | [] => [x]
  | y :: r => if Qle_bool x y then x :: l else y :: Qinsert x r
  end.

Definition Qsort (l : list Q) : list Q := foldr Qinsert [] l.

(** The middle sample, or the mean of the two middle samples. *)
Definition Qmedian (l : list Q) : Q :=
  let s := Qsort l in
  let n := length s in
  if Nat.even n then ((nth (n / 2 - 1) s 0 + nth (n / 2) s 0) / 2)%Q
  else nth (n / 2) s 0%Q.

(** A reducer over the samples that hold data; no sample, no value. *)
Definition Reducer_apply (red : Reducer) (vs : list Q) : option Q :=
  match vs with
  | [] => None
  | _ =>
      Some (match red with
            | Reducer_sum => Qsum vs
            | Reducer_mean => (Qsum vs / inject_Z (Z.of_nat (length vs)))%Q
            | Reducer_median => Qmedian vs
            end)
  end.

(** The samples with data at pixel [p] across a stack of rasters. *)
Definition column (p : nat) (rs : list Raster) : list Q :=
  omap (fun r => mjoin (r !! p)) rs.

(** Pixel-wise reduction of a stack of rasters of one grid. *)
Definition reduce_stack (red : Reducer) (rs : list Raster) : Raster :=
  match rs with
  | [] => []
  | r0 :: _ => map (fun p => Reducer_apply red (column p rs)) (seq 0 (length r0))
  end.

(** [ic.reduce(reducer)]: pixel-wise across the images, bands matched by
    name, in exact arithmetic; over zero images, an image without bands
    and without data.  The model gives the result no properties. *)
Definition ImageCollection_reduce (red : Reducer) (ic : ImageCollection) : Image :=
  mkImage
    (match ic with
     | [] => []
     | i0 :: _ =>
         map (fun n => (n, reduce_stack red (omap (band_lookup n) ic))) (fst <$> bands i0)
     end) ∅.

(** [ic.sum()], [ic.mean()], [ic.median()] *)
Definition ImageCollection_sum : ImageCollection -> Image := ImageCollection_reduce Reducer_sum.
Definition ImageCollection_mean : ImageCollection -> Image := ImageCollection_reduce Reducer_mean.
Definition ImageCollection_median : ImageCollection -> Image := ImageCollection_reduce Reducer_median.

(** ** Areal reduction *)

(** The argument object of [image.reduceRegion({...})]. *)
Record ReduceRegionArgs : Type := {
  reducer : Reducer;
  geometry : Geometry;
  scale : Q;
  bestEffort : bool;
  maxPixels : Q
}.

(** The samples with data inside a geometry. *)
Definition region_samples (g : Geometry) (r : Raster) : list Q :=
  omap (fun p => mjoin (r !! p)) (elements g).

Definition areal (red : Reducer) (g : Geometry) (r : Raster) : value :=
  match Reducer_apply red (region_samples g r) with
  | Some v => VNum v
  | None => VNull
  end.

(** [image.reduceRegion(args)]: one entry per band, null where the region
    holds no sample with data. *)
Definition Image_reduceRegion (a : ReduceRegionArgs) (img : Image) : gmap string value :=
  list_to_map (map (fun b => (fst b, areal (reducer a) (geometry a) (snd b))) (bands img)).

(** [dict.get(key)], null when there is no such entry. *)
Definition Dictionary_get (key : string) (d : gmap string value) : value :=
  default VNull (d !! key).

(** ** Features and assets *)

(** [ee.Feature(geometry, properties)] *)
Definition Feature_new (g : option Geometry) (props : list (string * value)) : Feature :=
  mkFeature g (list_to_map props).

(** The asset store: what a table asset id resolves to. *)
Definition AssetStore : Type := string -> FeatureCollection.

(** [ee.FeatureCollection(assetId)] *)
Definition FeatureCollection_load (assets : AssetStore) (assetId : string) : FeatureCollection :=
  assets assetId.

(** [fc.geometry()]: the geometries of the features merged into one. *)
Definition FeatureCollection_geometry (fc : FeatureCollection) : Geometry :=
  ⋃ (omap feature_geometry fc).

(** The image catalog: what a dataset id resolves to. *)
Definition Catalog : Type := string -> ImageCollection.

(** ** Control *)

(** [ee.Algorithms.If(condition, trueCase, falseCase)] *)
Definition Algorithms_If {A : Type} (condition : bool) (trueCase falseCase : A) : A :=
  if condition then trueCase else falseCase.

End EE.

(** Modelled from the spec: [ee.Image(x)], the platform's cast of a
    possibly null element to an image, is not part of the repository.  The
    cast of an image is the image.  What the cast of null gives is not
    specified: the model takes the image without bands and without data,
    as for a reduction over zero images. *)
Definition ee_Image (x : option EE.Image) : EE.Image :=
  default (EE.mkImage [] ∅) x.

(* ===================================================================== *)
(** * The script *)
(* ===================================================================== *)

(** A JavaScript [for (var m = lo; m <= hi; m++) body] over a state: the
    fuel is the number of values between [lo] and [hi], so the loop always
    runs to its end. *)
Fixpoint for_loop_go {S : Type} (fuel : nat) (m hi : Z) (body : Z -> S -> S) (s : S) : S :=
  match fuel with
  | O => s
  | Datatypes.S k =>
      if (m <=? hi)%Z then for_loop_go k (m + 1)%Z hi body (body m s) else s
  end.

Definition for_loop {S : Type} (lo hi : Z) (body : Z -> S -> S) (s : S) : S :=
  for_loop_go (Z.to_nat (hi - lo + 1)) lo hi body s.

(** The argument object of [Export.image.toDrive({...})]; the export
    collaborator receives one per call. *)
Record ExportTask : Type := {
  image : EE.Image;
  description : string;
  folder : string;
  fileNamePrefix : string;
  region : EE.Geometry;
  export_scale : Q;
  export_maxPixels : Q
}.

(** A trend line request in the chart options. *)
Record Trendline : Type := {
  trend_type : string;
  trend_color : string;
  trend_lineWidth : Z;
  showR2 : bool;
  visibleInLegend : bool
}.

(** The options object handed to [chart.setOptions]. *)
Record ChartOptions : Type := {
  title : string;
  legend_position : option string;
  hAxis_title : string;
  hAxis_format : option string;
  vAxis_title : string;
  bar_groupWidth : option string;
  colors : list string;
  pointSize : option Z;
  lineWidth : option Z;
  trendlines : gmap nat Trendline
}.

(** What [ui.Chart.feature.byFeature] is given, with the chart type and
    the options set on it afterwards. *)
Record Chart : Type := {
  features : EE.FeatureCollection;
  xProperty : string;
  yProperties : list string;
  chartType : string;
  options : ChartOptions
}.

(** What a map layer shows: the AOI outline
    [ee.Image().byte().paint(AOI, color, width)], or an image. *)
Inductive LayerObject : Type :=
| Painted (g : EE.Geometry) (color width : Z)
| Shown (img : EE.Image).

(** Visualization parameters [{min, max, palette}]. *)
Record VisParams : Type := {
  vis_min : option Z;
  vis_max : option Z;
  palette : list string
}.

(** [ui.Map.Layer(eeObject, visParams, name)]; [visParams] may be
    [undefined]. *)
Record Layer : Type := {
  eeObject : LayerObject;
  visParams : option VisParams;
  layer_name : string;
  shown : bool
}.

(** The state of the [Map] widget. *)
Record MapState : Type := {
  map_center : option EE.Geometry;
  map_zoom : JS.value;
  map_layers : list Layer
}.

(** [Map.centerObject(object, zoom)] *)
Definition Map_centerObject (g : EE.Geometry) (zoom : JS.value) (st : MapState) : MapState :=
  {| map_center := Some g; map_zoom := zoom; map_layers := map_layers st |}.

(** [Map.addLayer(eeObject, visParams, name, shown)] *)
Definition Map_addLayer (l : Layer) (st : MapState) : MapState :=
  {| map_center := map_center st; map_zoom := map_zoom st;
     map_layers := map_layers st ++ [l] |}.

(** [Map.layers().reset(list)] *)
Definition Map_layers_reset (ls : list Layer) (st : MapState) : MapState :=
  {| map_center := map_center st; map_zoom := map_zoom st; map_layers := ls |}.

(** The map before the script runs. *)
Definition Map_initial : MapState :=
  {| map_center := None; map_zoom := JS.Undefined; map_layers := [] |}.

Definition PALETTE_BLUES : list string :=
  ["f7fbff"; "deebf7"; "c6dbef"; "9ecae1"; "6baed6"; "4292c6"; "2171b5"; "08519c"; "08306b"].

Definition PALETTE_TEMP : list string :=
  ["313695"; "4575b4"; "74add1"; "abd9e9"; "e0f3f8"; "ffffbf"; "fee090"; "fdae61";
   "f46d43"; "d73027"; "a50026"].

(** [var VIZ = {...}] *)
Definition VIZ : list (string * VisParams) :=
  [("tp_mm", {| vis_min := Some 0%Z; vis_max := Some 800%Z; palette := PALETTE_BLUES |});
   ("tmean_C", {| vis_min := Some (-20)%Z; vis_max := Some 35%Z; palette := PALETTE_TEMP |});
   ("tmin_C", {| vis_min := Some (-40)%Z; vis_max := Some 25%Z; palette := PALETTE_TEMP |});
   ("tmax_C", {| vis_min := Some (-5)%Z; vis_max := Some 45%Z; palette := PALETTE_TEMP |})].

(** [var VAR_TO_BAND = {...}] *)
Definition VAR_TO_BAND : list (string * string) :=
  [("Total Precipitation (mm)", "tp_mm");
   ("Avg Air Temp (°C)", "tmean_C");
   ("Min Air Temp (°C)", "tmin_C");
   ("Max Air Temp (°C)", "tmax_C")].

(** [var currentLayerName = 'Monthly Climatology';] *)
Definition currentLayerName : string := "Monthly Climatology".

(** The widgets [updateMap] reads and the map it writes. *)
Record UI : Type := {
  selVar : string;
  selMonth : Z;
  ui_map : MapState
}.

Definition COLOR_TREND : string := "#a71930".

Definition MAX_PIXELS : Q := 10000000000000.

Section Script.

Variable P : Params.
Variable assets : EE.AssetStore.
Variable catalog : EE.Catalog.

(** [function loadAOIGeometry(assetId)] *)
Definition loadAOIGeometry (assetId : string) : EE.Geometry :=
  let fc := EE.FeatureCollection_load assets assetId in
  EE.FeatureCollection_geometry fc.

(** [function centerOn(geom, zoom) { Map.centerObject(geom, zoom || MAP_ZOOM); }] *)
Definition centerOn (geom : EE.Geometry) (zoom : JS.value) (st : MapState) : MapState :=
  Map_centerObject geom (JS.or zoom (JS.Num (MAP_ZOOM P))) st.

(** The image [img] that the callback of [monthlyClimatology] returns for
    month [m]. *)
Definition monthlyClimatology_img (ic : EE.ImageCollection) (band : string) (metric : JS.value)
    (m : Z) : EE.Image :=
  let mcol :=
    EE.ImageCollection_select [band]
      (EE.ImageCollection_filter (EE.Filter_calendarRange m m "month") ic) in
  let composite :=
    if JS.strict_eq metric (JS.Str "median")
    then EE.ImageCollection_median mcol
    else EE.ImageCollection_mean mcol in
  let img :=
    EE.Image_set "metric" (EE.encode metric)
      (EE.Image_set "band" (EE.VStr band)
         (EE.Image_set "month" (EE.Number m)
            (EE.Image_rename [band] composite))) in
  img.

(** [function monthlyClimatology(ic, band, metric)] *)
Definition monthlyClimatology (ic : EE.ImageCollection) (band : string) (metric : JS.value)
  : EE.ImageCollection :=
  let months := EE.List_sequence 1 12 in
  let imgs := map (monthlyClimatology_img ic band metric) months in
  imgs.

(** The temporal composite [yimg] of one year inside [annualSeries]. *)
Definition annualSeries_yimg (ic : EE.ImageCollection) (band : string) (method : JS.value) (y : Z)
  : EE.Image :=
  let ycol :=
    EE.ImageCollection_select [band]
      (EE.ImageCollection_filter (EE.Filter_calendarRange y y "year") ic) in
  EE.Image_rename [band]
    (ee_Image (Some (EE.Algorithms_If (JS.strict_eq method (JS.Str "sum"))
                       (EE.ImageCollection_sum ycol) (EE.ImageCollection_mean ycol)))).

(** The areal value [val] of one image, as [annualSeries] and
    [monthlyValuesForChart] compute it. *)
Definition regionValue (img : EE.Image) (band : string) (region : EE.Geometry) (scale : Q)
  : EE.value :=
  EE.Dictionary_get band
    (EE.Image_reduceRegion
       {| EE.reducer := EE.Reducer_mean;
          EE.geometry := region;
          EE.scale := scale;
          EE.bestEffort := true;
          EE.maxPixels := MAX_PIXELS |} img).

(** [function annualSeries(ic, band, method, region, scale)] *)
Definition annualSeries (ic : EE.ImageCollection) (band : string) (method : JS.value)
    (region : EE.Geometry) (scale : Q) : EE.FeatureCollection :=
  let years := EE.List_sequence (START_YEAR P) (END_YEAR P) in
  let feats := map (fun y =>
    let yimg := annualSeries_yimg ic band method y in
    let val := regionValue yimg band region scale in
    EE.Feature_new None [("year", EE.Number y); ("value", val)]) years in
  feats.

(** [function monthlyValuesForChart(monthlyIC, band, region, scale)] *)
Definition monthlyValuesForChart (monthlyIC : EE.ImageCollection) (band : string)
    (region : EE.Geometry) (scale : Q) : EE.FeatureCollection :=
  let months := EE.List_sequence 1 12 in
  let feats := map (fun m =>
    let img :=
      EE.Image_select [band]
        (ee_Image (EE.ImageCollection_first
           (EE.ImageCollection_filter (EE.Filter_eq "month" (EE.Number m)) monthlyIC))) in
    let val := regionValue img band region scale in
    let label := default EE.VNull (EE.VStr <$> MONTH_NAMES !! Z.to_nat (m - 1)) in
    EE.Feature_new None [("month", EE.Number m); ("label", label); ("value", val)]) months in
  feats.

(** [var AOI = loadAOIGeometry(AOI_ASSET_ID);] *)
Definition AOI : EE.Geometry := loadAOIGeometry (AOI_ASSET_ID P).

Definition startDate : Z := EE.Date_fromYMD (START_YEAR P) 1 1.
Definition endDate : Z := EE.Date_fromYMD (END_YEAR P) 12 31.

(** [var ERA5 = ee.ImageCollection('ECMWF/ERA5/MONTHLY').filterDate(...).select([...])] *)
Definition ERA5 : EE.ImageCollection :=
  EE.ImageCollection_select
    ["total_precipitation"; "mean_2m_air_temperature"; "minimum_2m_air_temperature";
     "maximum_2m_air_temperature"; "u_component_of_wind_10m"; "v_component_of_wind_10m"]
    (EE.ImageCollection_filterDate startDate (EE.Date_advance_day 1 endDate)
       (catalog "ECMWF/ERA5/MONTHLY")).

End Script.

(** The function mapped over [ERA5] to make [ERA5x]: unit conversions and
    renaming. *)
Definition ERA5x_convert (img : EE.Image) : EE.Image :=
  let tp_mm := EE.Image_rename ["tp_mm"]
    (EE.Image_multiply 1000 (EE.Image_select ["total_precipitation"] img)) in
  let tmean := EE.Image_rename ["tmean_C"]
    (EE.Image_subtract 273.15 (EE.Image_select ["mean_2m_air_temperature"] img)) in
  let tmin := EE.Image_rename ["tmin_C"]
    (EE.Image_subtract 273.15 (EE.Image_select ["minimum_2m_air_temperature"] img)) in
  let tmax := EE.Image_rename ["tmax_C"]
    (EE.Image_subtract 273.15 (EE.Image_select ["maximum_2m_air_temperature"] img)) in
  let u10 := EE.Image_rename ["u10"] (EE.Image_select ["u_component_of_wind_10m"] img) in
  let v10 := EE.Image_rename ["v10"] (EE.Image_select ["v_component_of_wind_10m"] img) in
  EE.Element_copyProperties img ["system:time_start"]
    (EE.Image_cat [tp_mm; tmean; tmin; tmax; u10; v10]).

Section Pipeline.

Variable P : Params.
Variable assets : EE.AssetStore.
Variable catalog : EE.Catalog.

(** [var ERA5x = ERA5.map(function(img) {...});] *)
Definition ERA5x : EE.ImageCollection :=
  EE.ImageCollection_map ERA5x_convert (ERA5 P catalog).

(** [var metric = getClimMetric();] *)
Definition metric : string := getClimMetric P.

Definition climTP : EE.ImageCollection := monthlyClimatology ERA5x "tp_mm" (JS.Str metric).
Definition climTmean : EE.ImageCollection := monthlyClimatology ERA5x "tmean_C" (JS.Str metric).
Definition climTmin : EE.ImageCollection := monthlyClimatology ERA5x "tmin_C" (JS.Str metric).
Definition climTmax : EE.ImageCollection := monthlyClimatology ERA5x "tmax_C" (JS.Str metric).

(** The body of the loop of [exportMonthlyRasters] for month [m]: the task
    handed to [Export.image.toDrive]. *)
Definition exportTask (monthlyIC : EE.ImageCollection) (band varLabel : string) (m : Z)
  : ExportTask :=
  let img :=
    EE.Image_clip (AOI P assets)
      (EE.Image_select [band]
         (ee_Image (EE.ImageCollection_first
            (EE.ImageCollection_filter (EE.Filter_eq "month" (EE.Number m)) monthlyIC)))) in
  let fileBase :=
    JS.join [JS.Str "ERA5_"; JS.Str varLabel; JS.Str "_"; JS.Str metric;
             JS.Str "_"; JS.Num (START_YEAR P); JS.Str "-"; JS.Num (END_YEAR P);
             JS.Str "_M"; JS.Str (pad2 m)] in
  {| image := img;
     description := fileBase;
     folder := DRIVE_FOLDER P;
     fileNamePrefix := fileBase;
     region := AOI P assets;
     export_scale := nativeScale P;
     export_maxPixels := MAX_PIXELS |}.

(** [function exportMonthlyRasters(monthlyIC, band, varLabel)], on the
    queue of export tasks: each pass of the loop appends one task. *)
Definition exportMonthlyRasters (monthlyIC : EE.ImageCollection) (band varLabel : string)
    (tasks : list ExportTask) : list ExportTask :=
  for_loop 1 12 (fun m tasks => tasks ++ [exportTask monthlyIC band varLabel m]) tasks.

(** [function drawMonthlyBarChart(monthlyIC, band, title, yLabel, colorHex)] *)
Definition drawMonthlyBarChart (monthlyIC : EE.ImageCollection) (band title_ yLabel colorHex : string)
  : Chart :=
  let fc := monthlyValuesForChart monthlyIC band (AOI P assets) (nativeScale P) in
  {| features := fc;
     xProperty := "label";
     yProperties := ["value"];
     chartType := "ColumnChart";
     options := {|
       title :=
         JS.concat (JS.concat (JS.concat (JS.concat (JS.concat (JS.concat (JS.concat
           title_ (JS.Str " (")) (JS.Num (START_YEAR P))) (JS.Str "–"))
           (JS.Num (END_YEAR P))) (JS.Str ", ")) (JS.Str metric)) (JS.Str ")");
       legend_position := Some "none";
       hAxis_title := "Month";
       hAxis_format := None;
       vAxis_title := yLabel;
       bar_groupWidth := Some "80%";
       colors := [colorHex];
       pointSize := None;
       lineWidth := None;
       trendlines := ∅ |} |}.

(** [function drawAnnualLineChart(ic, band, method, title, yLabel, trendColor)] *)
Definition drawAnnualLineChart (ic : EE.ImageCollection) (band : string) (method : JS.value)
    (title_ yLabel trendColor : string) : Chart :=
  let fc := annualSeries P ic band method (AOI P assets) (nativeScale P) in
  {| features := fc;
     xProperty := "year";
     yProperties := ["value"];
     chartType := "LineChart";
     options := {|
       title :=
         JS.concat (JS.concat (JS.concat (JS.concat (JS.concat
           title_ (JS.Str " (")) (JS.Num (START_YEAR P))) (JS.Str "–"))
           (JS.Num (END_YEAR P))) (JS.Str ")");
       legend_position := None;
       hAxis_title := "Year";
       hAxis_format := Some "####";
       vAxis_title := yLabel;
       bar_groupWidth := None;
       colors := [];
       pointSize := Some 3%Z;
       lineWidth := Some 2%Z;
       trendlines :=
         {[ 0%nat := {| trend_type := "linear";
                        trend_color := trendColor;
                        trend_lineWidth := 3;
                        showR2 := true;
                        visibleInLegend := true |} ]} |} |}.

(** [var VAR_TO_IC = {...}] *)
Definition VAR_TO_IC : list (string * EE.ImageCollection) :=
  [("Total Precipitation (mm)", climTP);
   ("Avg Air Temp (°C)", climTmean);
   ("Min Air Temp (°C)", climTmin);
   ("Max Air Temp (°C)", climTmax)].

(** [var aoiOutline = ee.Image().byte().paint(AOI, 1, 2);] *)
Definition aoiOutline : LayerObject := Painted (AOI P assets) 1 2.

(** [Map.addLayer(aoiOutline, {palette:['000000']}, 'AOI', true)] and the
    first layer of [updateMap]. *)
Definition aoiLayer : Layer :=
  {| eeObject := aoiOutline;
     visParams := Some {| vis_min := None; vis_max := None; palette := ["000000"] |};
     layer_name := "AOI";
     shown := true |}.

(** [function updateMap()].  A variable label missing from the tables
    makes [ic] undefined and the call [ic.filter] throws: [None]. *)
Definition updateMap (ui : UI) : option UI :=
  let vLabel := selVar ui in
  let m := selMonth ui in
  match JS.get vLabel VAR_TO_IC, JS.get vLabel VAR_TO_BAND with
  | Some ic, Some band =>
      let img :=
        EE.Image_clip (AOI P assets)
          (EE.Image_select [band]
             (ee_Image (EE.ImageCollection_first
                (EE.ImageCollection_filter (EE.Filter_eq "month" (EE.Number m)) ic)))) in
      Some {| selVar := selVar ui;
              selMonth := selMonth ui;
              ui_map :=
                Map_layers_reset
                  [aoiLayer;
                   {| eeObject := Shown img;
                      visParams := JS.get band VIZ;
                      layer_name :=
                        JS.concat (JS.concat (JS.concat (JS.concat
                          currentLayerName (JS.Str " — ")) (JS.Str vLabel)) (JS.Str " — "))
                          (JS.index MONTH_NAMES (m - 1));
                      shown := true |}]
                  (ui_map ui) |}
  | _, _ => None
  end.

(** The map part of the top level: [centerOn(AOI, MAP_ZOOM)], the AOI
    layer, the two selectors at their initial values, [updateMap()]. *)
Definition script_ui : option UI :=
  let st := centerOn P (AOI P assets) (JS.Num (MAP_ZOOM P)) Map_initial in
  let st := Map_addLayer aoiLayer st in
  updateMap {| selVar := "Total Precipitation (mm)"; selMonth := 1; ui_map := st |}.

(** What a run of the script hands to its collaborators. *)
Record Outputs : Type := {
  export_tasks : list ExportTask;
  monthly_charts : list Chart;
  annual_charts : list Chart
}.

(** The top level of the script, in the order of its statements. *)
Definition script : Outputs :=
  let tasks := exportMonthlyRasters climTP "tp_mm" "TPmm" [] in
  let tasks := exportMonthlyRasters climTmean "tmean_C" "TmeanC" tasks in
  let tasks := exportMonthlyRasters climTmin "tmin_C" "TminC" tasks in
  let tasks := exportMonthlyRasters climTmax "tmax_C" "TmaxC" tasks in
  let chartMonthlyTP := drawMonthlyBarChart climTP "tp_mm"
    "Total Precipitation (Monthly)" "mm" "#2c5fdf" in
  let chartMonthlyTmean := drawMonthlyBarChart climTmean "tmean_C"
    "Average Air Temperature (Monthly)" "°C" "#facf45" in
  let chartMonthlyTmin := drawMonthlyBarChart climTmin "tmin_C"
    "Minimum Air Temperature (Monthly)" "°C" "#00d5d5" in
  let chartMonthlyTmax := drawMonthlyBarChart climTmax "tmax_C"
    "Maximum Air Temperature (Monthly)" "°C" "#f44336" in
  let chartAnnualTP := drawAnnualLineChart ERA5x "tp_mm" (JS.Str "sum")
    "Annual Total Precipitation" "mm" COLOR_TREND in
  let chartAnnualTmean := drawAnnualLineChart ERA5x "tmean_C" (JS.Str "mean")
    "Annual Average Air Temperature" "°C" COLOR_TREND in
  let chartAnnualTmin := drawAnnualLineChart ERA5x "tmin_C" (JS.Str "mean")
    "Annual Average Minimum Air Temperature" "°C" COLOR_TREND in
  let chartAnnualTmax := drawAnnualLineChart ERA5x "tmax_C" (JS.Str "mean")
    "Annual Average Maximum Air Temperature" "°C" COLOR_TREND in
  {| export_tasks := tasks;
     monthly_charts := [chartMonthlyTP; chartMonthlyTmean; chartMonthlyTmin; chartMonthlyTmax];
     annual_charts := [chartAnnualTP; chartAnnualTmean; chartAnnualTmin; chartAnnualTmax] |}.

End Pipeline.

(* ===================================================================== *)
(** * Vocabulary of the properties and example data *)
(* ===================================================================== *)

(** The month as two decimal digits, the tens digit first. *)
Definition two_digits (m : Z) : string :=
  let digit d := ascii_of_nat (48 + Z.to_nat d) in
  String (digit (m / 10)%Z) (String (digit (m mod 10)%Z) EmptyString).

(** Equality of two characters up to the case of an ASCII letter. *)
Definition same_letter (a b : ascii) : bool :=
  let x := nat_of_ascii a in
  let y := nat_of_ascii b in
  (x =? y)%nat
  || ((65 <=? x)%nat && (x <=? 90)%nat && (x + 32 =? y)%nat)
  || ((65 <=? y)%nat && (y <=? 90)%nat && (y + 32 =? x)%nat).

Fixpoint eq_ignore_case (s t : string) : bool :=
  match s, t with
  | EmptyString, EmptyString => true
  | String a s', String b t' => same_letter a b && eq_ignore_case s' t'
  | _, _ => false
  end.

(** The composite of calendar month [m] under the mean reducer, with its
    three tags. *)
Definition mean_composite (ic : EE.ImageCollection) (band : string) (tag : EE.value) (m : Z)
  : EE.Image :=
  EE.Image_set "metric" tag
    (EE.Image_set "band" (EE.VStr band)
       (EE.Image_set "month" (EE.Number m)
          (EE.Image_rename [band]
             (EE.ImageCollection_mean
                (EE.ImageCollection_select [band]
                   (EE.ImageCollection_filter (EE.Filter_calendarRange m m "month") ic)))))).

(** The twelve calendar months. *)
Definition MONTHS : list Z := [1; 2; 3; 4; 5; 6; 7; 8; 9; 10; 11; 12]%Z.

(** Two images of January 2000 with one pixel, holding 1 and 3. *)
Definition two_january_images : EE.ImageCollection :=
  map (fun v =>
    EE.mkImage [("tp_mm", [Some v])]
      {[ "system:time_start" := EE.VNum (inject_Z (EE.Date_fromYMD 2000 1 1)) ]})
    [1%Q; 3%Q].

(** The images of calendar year [y], restricted to [band]: [ycol]. *)
Definition ycol (ic : EE.ImageCollection) (band : string) (y : Z) : EE.ImageCollection :=
  EE.ImageCollection_select [band]
    (EE.ImageCollection_filter (EE.Filter_calendarRange y y "year") ic).

(** The sample of band [name] at pixel [p], if the band is there and the
    pixel holds data. *)
Definition sample (name : string) (img : EE.Image) (p : nat) : option Q :=
  r ← EE.band_lookup name img; mjoin (r !! p).

(** A raw one-pixel image of January 1990: 0.001 m of precipitation,
    273.15 K for the three temperatures, wind (2, -3). *)
Definition raw_example : EE.Image :=
  EE.mkImage
    [("total_precipitation", [Some 0.001%Q]);
     ("mean_2m_air_temperature", [Some 273.15%Q]);
     ("minimum_2m_air_temperature", [Some 273.15%Q]);
     ("maximum_2m_air_temperature", [Some 273.15%Q]);
     ("u_component_of_wind_10m", [Some 2%Q]);
     ("v_component_of_wind_10m", [Some (-3)%Q])]
    {[ "system:time_start" := EE.VNum (inject_Z (EE.Date_fromYMD 1990 1 1));
       "system:index" := EE.VStr "199001" ]}.

(** * Images as client-side objects *)

(** On the client every [ee.Image] is an object held by reference.  The
    store lists the objects created so far; a method call reads the
    objects it is given and creates a new one; nothing in the script
    assigns to an existing object. *)
Module Obj.

Definition ref : Type := nat.

Abbreviation store := (list EE.Image).

(** Computations over the store; [None] is a reference to no object. *)
Definition M (A : Type) : Type := store -> option (A * store).

Definition ret {A : Type} (a : A) : M A := fun s => Some (a, s).

Definition bind {A B : Type} (m : M A) (k : A -> M B) : M B :=
  fun s =>
    match m s with
    | Some (a, s') => k a s'
    | None => None
    end.

Definition read (r : ref) : M EE.Image :=
  fun s =>
    match s !! r with
    | Some img => Some (img, s)
    | None => None
    end.

Definition new (img : EE.Image) : M ref :=
  fun s => Some (length s, s ++ [img]).

Fixpoint read_all (rs : list ref) : M (list EE.Image) :=
  match rs with
  | [] => ret []
  | r :: rest => bind (read r) (fun i => bind (read_all rest) (fun l => ret (i :: l)))
  end.

(** [img.select(name)], [img.multiply(c)], [img.subtract(c)],
    [img.rename(name)]: a new object computed from the receiver. *)
Definition method (f : EE.Image -> EE.Image) (r : ref) : M ref :=
  bind (read r) (fun i => new (f i)).

Definition select (name : string) : ref -> M ref := method (EE.Image_select [name]).
Definition multiply (c : Q) : ref -> M ref := method (EE.Image_multiply c).
Definition subtract (c : Q) : ref -> M ref := method (EE.Image_subtract c).
Definition rename (name : string) : ref -> M ref := method (EE.Image_rename [name]).

(** [ee.Image.cat(images)] *)
Definition cat (rs : list ref) : M ref :=
  bind (read_all rs) (fun imgs => new (EE.Image_cat imgs)).

(** [dst.copyProperties(src, keys)] *)
Definition copyProperties (src : ref) (keys : list string) (dst : ref) : M ref :=
  bind (read dst) (fun d => bind (read src) (fun s =>
    new (EE.Element_copyProperties s keys d))).

End Obj.

Notation "'var' x := m ; k" := (Obj.bind m (fun x => k))
  (at level 10, x name, m at level 100, k at level 200).

(** The callback [function(img) {...}] of [ERA5.map], statement by
    statement, on object references. *)
Definition ERA5x_callback (img : Obj.ref) : Obj.M Obj.ref :=
  var tp_mm := (var a := Obj.select "total_precipitation" img;
                var b := Obj.multiply 1000 a; Obj.rename "tp_mm" b);
  var tmean := (var a := Obj.select "mean_2m_air_temperature" img;
                var b := Obj.subtract 273.15 a; Obj.rename "tmean_C" b);
  var tmin := (var a := Obj.select "minimum_2m_air_temperature" img;
               var b := Obj.subtract 273.15 a; Obj.rename "tmin_C" b);
  var tmax := (var a := Obj.select "maximum_2m_air_temperature" img;
               var b := Obj.subtract 273.15 a; Obj.rename "tmax_C" b);
  var u10 := (var a := Obj.select "u_component_of_wind_10m" img; Obj.rename "u10" a);
  var v10 := (var a := Obj.select "v_component_of_wind_10m" img; Obj.rename "v10" a);
  var c := Obj.cat [tp_mm; tmean; tmin; tmax; u10; v10];
  Obj.copyProperties img ["system:time_start"] c.

(** A computation that succeeds from store [s], only adds objects, and
    ends in a result and store satisfying [Q]. *)
Definition runs {A : Type} (s : Obj.store) (m : Obj.M A) (Q : A -> Obj.store -> Prop) : Prop :=
  exists a t, m s = Some (a, s ++ t) /\ Q a (s ++ t).

(** The temporal reducer the method selects. *)
Definition temporal_reducer (method : JS.value) : EE.Reducer :=
  if decide (method = JS.Str "sum") then EE.Reducer_sum else EE.Reducer_mean.

(** The images of the series whose calendar year is [y]. *)
Definition year_images (ic : EE.ImageCollection) (y : Z) : EE.ImageCollection :=
  EE.ImageCollection_filter (EE.Filter_calendarRange y y "year") ic.

(** The record [annualSeries] emits for a year and a value. *)
Definition AnnualRecord (y : Z) (v : EE.value) : EE.Feature :=
  EE.Feature_new None [("year", EE.Number y); ("value", v)].

(** A monthly image on two pixels with 10 mm of precipitation. *)
Definition constant_month (y m : Z) : EE.Image :=
  EE.mkImage [("tp_mm", [Some 10%Q; Some 10%Q])]
    {[ "system:time_start" := EE.VNum (inject_Z (EE.Date_fromYMD y m 1)) ]}.

(** Every month of 2000, 2001 and 2002. *)
Definition constant_series : EE.ImageCollection :=
  flat_map (fun y => map (constant_month y) MONTHS) [2000; 2001; 2002]%Z.

(** Parameters asking for 2000..2003: the series has no image of 2003. *)
Definition series_params : Params := {|
  AOI_ASSET_ID := "aoi";
  START_YEAR := 2000;
  END_YEAR := 2003;
  AVERAGING_METRIC := JS.Str "mean";
  DRIVE_FOLDER := "out";
  nativeScale := 5000;
  MAP_ZOOM := 6
|}.

(** The failure of the AOI resolver in the specification. *)
Inductive AOIError : Type := InvalidAOIError.

(** The AOI resolver as the specification words it, to compare with
    [loadAOIGeometry]: a reference that resolves to zero geometries is
    rejected, any other yields the union of its geometries. *)
Definition AOIResolver_spec (assets : EE.AssetStore) (assetRef : string)
  : AOIError + EE.Geometry :=
  match omap EE.feature_geometry (EE.FeatureCollection_load assets assetRef) with
  | [] => inl InvalidAOIError
  | g :: gs => inr (⋃ (g :: gs))
  end.

(** An asset store whose tables are all empty, and a catalog holding the
    example image. *)
Definition empty_assets : EE.AssetStore := fun _ => [].
Definition example_catalog : EE.Catalog := fun _ => [raw_example].

(** The non-null (year, value) pairs of an annual series. *)
Definition series_points (fc : EE.FeatureCollection) : list (Q * Q) :=
  omap (fun f =>
    match EE.feature_properties f !! "year", EE.feature_properties f !! "value" with
    | Some (EE.VNum x), Some (EE.VNum y) => Some (x, y)
    | _, _ => None
    end) fc.

(** The best-fit line of the specification, by least squares. *)
Definition regression_slope (pts : list (Q * Q)) : Q :=
  let n := inject_Z (Z.of_nat (length pts)) in
  let sx := EE.Qsum (map fst pts) in
  let sy := EE.Qsum (map snd pts) in
  let sxy := EE.Qsum (map (fun p => fst p * snd p)%Q pts) in
  let sxx := EE.Qsum (map (fun p => fst p * fst p)%Q pts) in
  ((n * sxy - sx * sy) / (n * sxx - sx * sx))%Q.

Definition regression_intercept (pts : list (Q * Q)) : Q :=
  let n := inject_Z (Z.of_nat (length pts)) in
  ((EE.Qsum (map snd pts) - regression_slope pts * EE.Qsum (map fst pts)) / n)%Q.

(** One-pixel yearly images holding the given values from 2000 on. *)
Definition yearly_series (values : list Q) : EE.ImageCollection :=
  imap (fun k v =>
    EE.mkImage [("tp_mm", [Some v])]
      {[ "system:time_start" := EE.VNum (inject_Z (EE.Date_fromYMD (2000 + Z.of_nat k) 1 1)) ]})
    values.

Definition trend_params : Params := {|
  AOI_ASSET_ID := "aoi";
  START_YEAR := 2000;
  END_YEAR := 2002;
  AVERAGING_METRIC := JS.Str "mean";
  DRIVE_FOLDER := "out";
  nativeScale := 5000;
  MAP_ZOOM := 6
|}.

(** An asset store with one feature covering pixel 0. *)
Definition pixel_assets : EE.AssetStore := fun _ => [EE.mkFeature (Some {[ 0%nat ]}) ∅].

(** The annual chart of the yearly series holding the given values. *)
Definition trend_chart (values : list Q) : Chart :=
  drawAnnualLineChart trend_params pixel_assets (yearly_series values)
    "tp_mm" (JS.Str "mean") "Annual" "mm" COLOR_TREND.

(** The integer a string of decimal digits denotes, if it is one. *)
Definition decimal_value (s : string) : option Z :=
  Z.of_int <$> NilZero.int_of_string s.

(** The names of the twelve files exported under one variable label. *)
Definition export_names (P : Params) (varLabel : string) : list string :=
  map (fun m =>
    "ERA5_" +:+ varLabel +:+ "_" +:+ metric P +:+ "_"
    +:+ JS.number_to_string (START_YEAR P) +:+ "-" +:+ JS.number_to_string (END_YEAR P)
    +:+ "_M" +:+ pad2 m) MONTHS.

(** The chart row of a month: its number, its label and its value. *)
Definition ChartRow (m : Z) (label : string) (v : EE.value) : EE.Feature :=
  EE.Feature_new None [("month", EE.Number m); ("label", EE.VStr label); ("value", v)].

(** The months paired with their labels. *)
Definition MONTH_LABELS : list (Z * string) := zip MONTHS MONTH_NAMES.

(** The layer [updateMap] puts on the map for a variable label, its band,
    its climatology and a month. *)
Definition climatologyLayer (P : Params) (assets : EE.AssetStore) (vLabel band : string)
    (ic : EE.ImageCollection) (m : Z) : Layer :=
  {| eeObject :=
       Shown (EE.Image_clip (AOI P assets)
                (EE.Image_select [band]
                   (ee_Image (EE.ImageCollection_first
                      (EE.ImageCollection_filter (EE.Filter_eq "month" (EE.Number m)) ic)))));
     visParams := JS.get band VIZ;
     layer_name :=
       currentLayerName +:+ " — " +:+ vLabel +:+ " — "
       +:+ JS.to_string (JS.index MONTH_NAMES (m - 1));
     shown := true |}.

(** The calendar year and month of an image, from its acquisition time. *)
Definition image_year (img : EE.Image) : option Z :=
  t ← EE.time_start img; EE.calendar_field "year" t.

Definition image_month (img : EE.Image) : option Z :=
  t ← EE.time_start img; EE.calendar_field "month" t.

(** The raw band and the converted band of each line of the converter. *)
Definition CONVERSIONS : list (string * string) :=
  [("total_precipitation", "tp_mm");
   ("mean_2m_air_temperature", "tmean_C");
   ("minimum_2m_air_temperature", "tmin_C");
   ("maximum_2m_air_temperature", "tmax_C");
   ("u_component_of_wind_10m", "u10");
   ("v_component_of_wind_10m", "v10")].

(** The images of the series whose calendar month is [m]. *)
Definition month_images (ic : EE.ImageCollection) (m : Z) : EE.ImageCollection :=
  EE.ImageCollection_filter (EE.Filter_calendarRange m m "month") ic.

(** The reducer the climatology metric selects. *)
Definition climatology_reducer (metric : JS.value) : EE.Reducer :=
  if decide (metric = JS.Str "median") then EE.Reducer_median else EE.Reducer_mean.

(* ===================================================================== *)
(** * Properties *)
(* ===================================================================== *)

(** ** Lists and loops *)

Lemma List_sequence_length (a b : Z) :
  length (EE.List_sequence a b) = Z.to_nat (b - a + 1).
Proof. unfold EE.List_sequence. by rewrite length_map, length_seq. Qed.

Lemma List_sequence_lookup (a b : Z) (i : nat) :
  (i < Z.to_nat (b - a + 1))%nat ->
  EE.List_sequence a b !! i = Some (a + Z.of_nat i)%Z.
Proof.
  intros Hi. unfold EE.List_sequence.
  rewrite list_lookup_fmap, lookup_seq_lt by done. done.
Qed.

Lemma List_sequence_elem_of (a b y : Z) :
  y ∈ EE.List_sequence a b <-> (a <= y <= b)%Z.
Proof.
  unfold EE.List_sequence. rewrite list_elem_of_fmap. split.
  - intros (i & -> & Hi). apply elem_of_seq in Hi. lia.
  - intros Hy. exists (Z.to_nat (y - a)). split; [lia |].
    apply elem_of_seq. lia.
Qed.

Lemma List_sequence_NoDup (a b : Z) : NoDup (EE.List_sequence a b).
Proof.
  unfold EE.List_sequence. apply NoDup_fmap_2; [| apply NoDup_seq].
  intros i j Hij. lia.
Qed.

Lemma for_loop_go_append {A : Type} (f : Z -> A) (fuel : nat) (m hi : Z) (acc : list A) :
  Z.to_nat (hi - m + 1) = fuel ->
  for_loop_go fuel m hi (fun k s => s ++ [f k]) acc
  = acc ++ map f (EE.List_sequence m hi).
Proof.
  revert m acc. induction fuel as [| fuel IH]; intros m acc Hf.
  - unfold EE.List_sequence. rewrite Hf. simpl. by rewrite app_nil_r.
  - simpl. destruct (Z.leb_spec m hi) as [Hle | Hgt]; [| lia].
    rewrite IH by lia. rewrite <- app_assoc. f_equal.
    unfold EE.List_sequence.
    replace (Z.to_nat (hi - m + 1)) with (S (Z.to_nat (hi - (m + 1) + 1))) by lia.
    simpl. f_equal; [f_equal; lia |].
    rewrite <- seq_shift, !map_map. apply map_ext. intros i. f_equal. lia.
Qed.

Lemma for_loop_append {A : Type} (f : Z -> A) (lo hi : Z) (acc : list A) :
  for_loop lo hi (fun k s => s ++ [f k]) acc = acc ++ map f (EE.List_sequence lo hi).
Proof. unfold for_loop. by apply for_loop_go_append. Qed.

(** ** Metric selection *)

Lemma pad2_two_digits (m : Z) : (0 <= m <= 99)%Z -> pad2 m = two_digits m.
Proof.
  intros Hm.
  assert (Hall : forallb (fun k => String.eqb (pad2 k) (two_digits k)) (EE.List_sequence 0 99) = true)
    by (vm_compute; reflexivity).
  rewrite forallb_forall in Hall.
  apply String.eqb_eq, Hall, list_elem_of_In, List_sequence_elem_of. lia.
Qed.

Lemma lower_ascii_median_letter (a d : ascii) :
  d ∈ ["m"; "e"; "d"; "i"; "a"; "n"]%char ->
  same_letter a d = true <-> JS.lower_ascii a = d.
Proof.
  intros Hd. repeat (apply elem_of_cons in Hd as [-> | Hd]);
    [.. | by apply elem_of_nil in Hd];
    destruct a as [[] [] [] [] [] [] [] []]; vm_compute; split; congruence.
Qed.

Lemma toLowerCase_median (s : string) :
  JS.toLowerCase s = "median" <-> eq_ignore_case s "median" = true.
Proof.
  assert (L : forall a d r t, d ∈ ["m"; "e"; "d"; "i"; "a"; "n"]%char ->
            (JS.toLowerCase r = t <-> eq_ignore_case r t = true) ->
            (JS.toLowerCase (String a r) = String d t
             <-> eq_ignore_case (String a r) (String d t) = true)).
  { intros a d r t Hd IH. simpl. rewrite andb_true_iff, lower_ascii_median_letter by done.
    rewrite <- IH. split; [by intros [= -> ->] | by intros [-> ->]]. }
  revert s.
  assert (E : forall r, JS.toLowerCase r = EmptyString <-> eq_ignore_case r EmptyString = true)
    by (intros []; simpl; split; congruence).
  intros s.
  repeat (destruct s as [| ? s]; [simpl; split; congruence |];
          apply L; [apply list_elem_of_In; simpl; tauto |]).
  apply E.
Qed.

Lemma getClimMetric_unfold (P : Params) :
  getClimMetric P =
  if decide (JS.toLowerCase (JS.to_string (AVERAGING_METRIC P)) = "median")
  then "median" else "mean".
Proof.
  unfold getClimMetric, JS.strict_eq.
  change (JS.concat EmptyString (AVERAGING_METRIC P)) with (JS.to_string (AVERAGING_METRIC P)).
  destruct (decide _) as [E | N].
  - rewrite bool_decide_eq_true_2; [done | by rewrite E].
  - rewrite bool_decide_eq_false_2; [done |]. intros [= E]. done.
Qed.

Lemma monthlyClimatology_not_median (ic : EE.ImageCollection) (band : string) (metric : JS.value) :
  metric <> JS.Str "median" ->
  monthlyClimatology ic band metric
  = map (mean_composite ic band (EE.encode metric)) (EE.List_sequence 1 12).
Proof.
  intros Hm. unfold monthlyClimatology. cbv zeta. apply map_ext. intros m.
  unfold monthlyClimatology_img, JS.strict_eq.
  rewrite bool_decide_eq_false_2 by done. reflexivity.
Qed.

(** C9: whenever the lowercased string form of the configured averaging
    metric is not 'median', getClimMetric returns 'mean' and the monthly
    climatology built with it reduces every month with the mean reducer;
    the selection always returns 'mean' or 'median' (it cannot fail); and
    'median' is recognised whatever the case of its letters. *)
Theorem getClimMetric_mean_unless_median (P : Params) :
  (JS.toLowerCase (JS.to_string (AVERAGING_METRIC P)) <> "median" ->
   getClimMetric P = "mean" /\
   forall ic band,
     monthlyClimatology ic band (JS.Str (getClimMetric P))
     = map (mean_composite ic band (EE.VStr "mean")) (EE.List_sequence 1 12)) /\
  (getClimMetric P = "mean" \/ getClimMetric P = "median") /\
  (forall s, AVERAGING_METRIC P = JS.Str s ->
     (getClimMetric P = "median" <-> eq_ignore_case s "median" = true)).
Proof.
  rewrite getClimMetric_unfold. split; [| split].
  - intros Hne. rewrite decide_False by done. split; [done |].
    intros ic band. by rewrite monthlyClimatology_not_median.
  - destruct (decide _); auto.
  - intros s Hs. rewrite Hs. simpl. rewrite <- toLowerCase_median.
    destruct (decide _); split; congruence.
Qed.

(** Witness for C9: the metric 'Average' is not 'median'. *)
Lemma getClimMetric_mean_unless_median_witness :
  getClimMetric
    {| AOI_ASSET_ID := "aoi"; START_YEAR := 1990; END_YEAR := 2020;
       AVERAGING_METRIC := JS.Str "Average"; DRIVE_FOLDER := "out";
       nativeScale := 5000; MAP_ZOOM := 6 |} = "mean".
Proof.
  refine (proj1 (proj1 (getClimMetric_mean_unless_median _) _)).
  simpl. discriminate.
Defined.

(** ** Tags of the composites *)

Lemma List_sequence_months : EE.List_sequence 1 12 = MONTHS.
Proof. reflexivity. Qed.

Lemma Image_get_set_eq (k : string) (v : EE.value) (img : EE.Image) :
  EE.Image_get k (EE.Image_set k v img) = Some v.
Proof. unfold EE.Image_get, EE.Image_set. simpl. apply lookup_insert_eq. Qed.

Lemma Image_get_set_ne (k k' : string) (v : EE.value) (img : EE.Image) :
  k <> k' -> EE.Image_get k' (EE.Image_set k v img) = EE.Image_get k' img.
Proof. intros Hk. unfold EE.Image_get, EE.Image_set. simpl. by apply lookup_insert_ne. Qed.

Lemma Qeq_bool_inject_Z (a b : Z) : Qeq_bool (inject_Z a) (inject_Z b) = (a =? b)%Z.
Proof.
  unfold Qeq_bool, inject_Z. simpl. by rewrite !Z.mul_1_r.
Qed.

Section Composite.

Variables (ic : EE.ImageCollection) (band : string) (metric : JS.value).

#[local] Abbreviation composite := (monthlyClimatology_img ic band metric).

Lemma monthlyClimatology_map : monthlyClimatology ic band metric = map composite MONTHS.
Proof. reflexivity. Qed.

Lemma composite_month (m : Z) : EE.Image_get "month" (composite m) = Some (EE.Number m).
Proof.
  unfold monthlyClimatology_img. cbv zeta. rewrite !Image_get_set_ne by done.
  apply Image_get_set_eq.
Qed.

Lemma composite_band (m : Z) : EE.Image_get "band" (composite m) = Some (EE.VStr band).
Proof.
  unfold monthlyClimatology_img. cbv zeta. rewrite Image_get_set_ne by done.
  apply Image_get_set_eq.
Qed.

Lemma composite_metric (m : Z) : EE.Image_get "metric" (composite m) = Some (EE.encode metric).
Proof. unfold monthlyClimatology_img. cbv zeta. apply Image_get_set_eq. Qed.

Lemma composite_passes (k m : Z) :
  EE.Filter_passes (EE.Filter_eq "month" (EE.Number m)) (composite k) = (k =? m)%Z.
Proof.
  unfold EE.Filter_passes. rewrite composite_month. apply Qeq_bool_inject_Z.
Qed.

Lemma composite_filter (m : Z) :
  EE.ImageCollection_filter (EE.Filter_eq "month" (EE.Number m)) (map composite MONTHS)
  = map composite (List.filter (fun k => (k =? m)%Z) MONTHS).
Proof.
  unfold EE.ImageCollection_filter. generalize MONTHS as l.
  induction l as [| k l IH]; [done |].
  cbn [map List.filter]. rewrite composite_passes, IH. by destruct (k =? m)%Z.
Qed.

(** C3: for every series, band and metric the climatology holds exactly
    twelve composites; read in order their 'month' tags are 1, 2, ..., 12,
    so the tags are ascending, without duplicates and exactly the months
    1..12; each month selects exactly one composite; and every composite
    is tagged with the given band and metric. *)
Theorem monthlyClimatology_twelve_tagged :
  let clim := monthlyClimatology ic band metric in
  length clim = 12%nat /\
  map (EE.Image_get "month") clim = map (fun m => Some (EE.Number m)) MONTHS /\
  Forall (fun m =>
    length (EE.ImageCollection_filter (EE.Filter_eq "month" (EE.Number m)) clim) = 1%nat) MONTHS /\
  Forall (fun img =>
    EE.Image_get "band" img = Some (EE.VStr band) /\
    EE.Image_get "metric" img = Some (EE.encode metric)) clim.
Proof.
  cbv zeta. rewrite monthlyClimatology_map. repeat split.
  - rewrite map_map. apply map_ext. apply composite_month.
  - apply Forall_forall. intros m Hm. rewrite composite_filter, length_map.
    unfold MONTHS in Hm. repeat (apply elem_of_cons in Hm as [-> | Hm]; [reflexivity |]).
    by apply elem_of_nil in Hm.
  - apply List.Forall_map, Forall_forall. intros m _.
    split; [apply composite_band | apply composite_metric].
Qed.

End Composite.

(** ** Choice of the temporal reducer *)

Lemma annualSeries_yimg_sum (ic : EE.ImageCollection) (band : string) (y : Z) :
  annualSeries_yimg ic band (JS.Str "sum") y
  = EE.Image_rename [band] (EE.ImageCollection_sum (ycol ic band y)).
Proof. reflexivity. Qed.

Lemma annualSeries_yimg_other (ic : EE.ImageCollection) (band : string) (method : JS.value) (y : Z) :
  method <> JS.Str "sum" ->
  annualSeries_yimg ic band method y
  = EE.Image_rename [band] (EE.ImageCollection_mean (ycol ic band y)).
Proof.
  intros Hm. unfold annualSeries_yimg, JS.strict_eq.
  rewrite bool_decide_eq_false_2 by done. reflexivity.
Qed.

Lemma annualSeries_length (P : Params) ic band method region scale :
  length (annualSeries P ic band method region scale)
  = Z.to_nat (END_YEAR P - START_YEAR P + 1).
Proof. unfold annualSeries. by rewrite length_map, List_sequence_length. Qed.

(** C10: the yearly composite is the pixel-wise sum when the method is
    exactly the string 'sum', and the pixel-wise mean for every other
    method value ('mean', 'median', a misspelling, a non-string); on a year
    where sum and mean differ the composite is the sum if and only if the
    method is 'sum'; and the method never changes how many records are
    produced, so no method is rejected. *)
Theorem annualSeries_sum_iff_method_sum (P : Params) (ic : EE.ImageCollection) (band : string)
    (method : JS.value) (region : EE.Geometry) (scale : Q) (y : Z) :
  (method = JS.Str "sum" ->
   annualSeries_yimg ic band method y
   = EE.Image_rename [band] (EE.ImageCollection_sum (ycol ic band y))) /\
  (method <> JS.Str "sum" ->
   annualSeries_yimg ic band method y
   = EE.Image_rename [band] (EE.ImageCollection_mean (ycol ic band y))) /\
  (annualSeries_yimg two_january_images "tp_mm" method 2000
   = EE.Image_rename ["tp_mm"] (EE.ImageCollection_sum (ycol two_january_images "tp_mm" 2000))
   <-> method = JS.Str "sum") /\
  length (annualSeries P ic band method region scale)
  = length (annualSeries P ic band (JS.Str "sum") region scale).
Proof.
  split; [| split; [| split]].
  - intros ->. apply annualSeries_yimg_sum.
  - apply annualSeries_yimg_other.
  - split.
    + intros H. destruct (decide (method = JS.Str "sum")) as [| Hne]; [done |].
      rewrite annualSeries_yimg_other in H by done. vm_compute in H. discriminate H.
    + intros ->. apply annualSeries_yimg_sum.
  - by rewrite !annualSeries_length.
Qed.

(** Witness for C10: the misspelt method 'Sum' selects the mean. *)
Lemma annualSeries_sum_iff_method_sum_witness :
  annualSeries_yimg two_january_images "tp_mm" (JS.Str "Sum") 2000
  = EE.Image_rename ["tp_mm"] (EE.ImageCollection_mean (ycol two_january_images "tp_mm" 2000)).
Proof.
  refine (proj1 (proj2 (annualSeries_sum_iff_method_sum default_params _ _ _ ∅ 5000 _)) _).
  discriminate.
Defined.

(** ** Export file names *)

Lemma exportMonthlyRasters_append (P : Params) assets monthlyIC band varLabel tasks :
  exportMonthlyRasters P assets monthlyIC band varLabel tasks
  = tasks ++ map (exportTask P assets monthlyIC band varLabel) MONTHS.
Proof. unfold exportMonthlyRasters. by rewrite for_loop_append. Qed.

Lemma string_app_nil_r (s : string) : s +:+ EmptyString = s.
Proof.
  induction s as [| c s IH]; [done |].
  change (String c (s +:+ EmptyString) = String c s). by rewrite IH.
Qed.

Lemma exportTask_fileBase (P : Params) assets monthlyIC band varLabel (m : Z) :
  fileNamePrefix (exportTask P assets monthlyIC band varLabel m)
  = "ERA5_" +:+ varLabel +:+ "_" +:+ metric P +:+ "_"
    +:+ JS.number_to_string (START_YEAR P) +:+ "-" +:+ JS.number_to_string (END_YEAR P)
    +:+ "_M" +:+ pad2 m.
Proof.
  unfold exportTask. cbn [fileNamePrefix JS.join JS.join_elem JS.to_string].
  by rewrite string_app_nil_r.
Qed.

(** C2: for every month m in 1..12 the m-th task that
    exportMonthlyRasters appends has, as file name prefix and as
    description, the string 'ERA5_' + varLabel + '_' + metric + '_' +
    startYear + '-' + endYear + '_M' + the month on two digits. *)
Theorem exportMonthlyRasters_fileId (P : Params) (assets : EE.AssetStore)
    (monthlyIC : EE.ImageCollection) (band varLabel : string) (tasks : list ExportTask) (m : Z) :
  (1 <= m <= 12)%Z ->
  exists job,
    exportMonthlyRasters P assets monthlyIC band varLabel tasks
      !! (length tasks + Z.to_nat (m - 1))%nat = Some job /\
    fileNamePrefix job
    = "ERA5_" +:+ varLabel +:+ "_" +:+ metric P +:+ "_"
      +:+ JS.number_to_string (START_YEAR P) +:+ "-" +:+ JS.number_to_string (END_YEAR P)
      +:+ "_M" +:+ two_digits m /\
    description job = fileNamePrefix job /\
    length (exportMonthlyRasters P assets monthlyIC band varLabel tasks)
    = (length tasks + 12)%nat.
Proof.
  intros Hm. exists (exportTask P assets monthlyIC band varLabel m).
  rewrite exportMonthlyRasters_append. repeat split.
  - rewrite lookup_app_r by lia.
    replace (length tasks + Z.to_nat (m - 1) - length tasks)%nat with (Z.to_nat (m - 1)) by lia.
    rewrite list_lookup_fmap, <- List_sequence_months, List_sequence_lookup by lia.
    simpl. do 2 f_equal. lia.
  - rewrite exportTask_fileBase, pad2_two_digits by lia. reflexivity.
  - by rewrite length_app, length_map.
Qed.

(** Witness for C2: with the shipped parameters (mean, 1990-2020), the
    label 'TPmm' and month 3 the file is ERA5_TPmm_mean_1990-2020_M03. *)
Lemma exportMonthlyRasters_fileId_march :
  exists job,
    exportMonthlyRasters default_params (fun _ => []) [] "tp_mm" "TPmm" []
      !! 2%nat = Some job /\
    fileNamePrefix job = "ERA5_TPmm_mean_1990-2020_M03".
Proof.
  destruct (exportMonthlyRasters_fileId default_params (fun _ => []) []
              "tp_mm" "TPmm" [] 3 ltac:(lia)) as (job & Hjob & Hname & _).
  exists job. split; [exact Hjob | exact Hname].
Defined.

(** ** Unit conversion *)

(** The bands one line of the converter contributes: band [src] selected,
    transformed by [f] and renamed to [dst]. *)
Lemma convert_line_bands (f : EE.Image -> EE.Image) (g : Q -> Q) (src dst : string) (img : EE.Image) :
  (forall i, EE.bands (f i) = map (fun b => (fst b, EE.Raster_map g (snd b))) (EE.bands i)) ->
  EE.bands (EE.Image_rename [dst] (f (EE.Image_select [src] img)))
  = match EE.band_lookup src img with
    | Some r => [(dst, EE.Raster_map g r)]
    | None => []
    end.
Proof.
  intros Hf. unfold EE.Image_rename, EE.Image_select. simpl. rewrite Hf. simpl.
  destruct (EE.band_lookup src img); reflexivity.
Qed.

Lemma Raster_map_id (r : EE.Raster) : EE.Raster_map (fun v => v) r = r.
Proof.
  unfold EE.Raster_map. induction r as [| [v |] r IH]; simpl; by rewrite ?IH.
Qed.

Lemma ERA5x_convert_bands (img : EE.Image) :
  EE.bands (ERA5x_convert img)
  = concat
      (map (fun '(src, dst, g) =>
              match EE.band_lookup src img with
              | Some r => [(dst, EE.Raster_map g r)]
              | None => []
              end)
         [("total_precipitation", "tp_mm", fun v => (v * 1000)%Q);
          ("mean_2m_air_temperature", "tmean_C", fun v => (v - 273.15)%Q);
          ("minimum_2m_air_temperature", "tmin_C", fun v => (v - 273.15)%Q);
          ("maximum_2m_air_temperature", "tmax_C", fun v => (v - 273.15)%Q);
          ("u_component_of_wind_10m", "u10", fun v => v);
          ("v_component_of_wind_10m", "v10", fun v => v)]).
Proof.
  unfold ERA5x_convert, EE.Element_copyProperties, EE.Image_cat.
  cbn [EE.bands fmap list_fmap concat map].
  rewrite !(convert_line_bands (EE.Image_multiply 1000) (fun v => (v * 1000)%Q)) by done.
  rewrite !(convert_line_bands (EE.Image_subtract 273.15) (fun v => (v - 273.15)%Q)) by done.
  rewrite !(convert_line_bands (fun i => i) (fun v => v))
    by (intros i; induction (EE.bands i) as [| [n r] l IH]; simpl;
        [done | by rewrite Raster_map_id, <- IH]).
  reflexivity.
Qed.

Lemma sample_map (g : Q -> Q) (r : EE.Raster) (p : nat) :
  mjoin (EE.Raster_map g r !! p) = g <$> mjoin (r !! p).
Proof.
  unfold EE.Raster_map. rewrite list_lookup_fmap.
  destruct (r !! p) as [[v |] |]; reflexivity.
Qed.

(** C5: for every input image, the converted precipitation band is the
    raw one multiplied by exactly 1000 sample by sample, each converted
    temperature band is the raw one minus exactly 273.15, and the wind
    components are the raw bands under their new names; on the example
    image 0.001 m becomes 1.0 mm and 273.15 K becomes 0.0 degrees. *)
Theorem ERA5x_convert_units (img : EE.Image) :
  EE.band_lookup "tp_mm" (ERA5x_convert img)
  = EE.Raster_map (fun v => (v * 1000)%Q) <$> EE.band_lookup "total_precipitation" img /\
  EE.band_lookup "tmean_C" (ERA5x_convert img)
  = EE.Raster_map (fun v => (v - 273.15)%Q) <$> EE.band_lookup "mean_2m_air_temperature" img /\
  EE.band_lookup "tmin_C" (ERA5x_convert img)
  = EE.Raster_map (fun v => (v - 273.15)%Q) <$> EE.band_lookup "minimum_2m_air_temperature" img /\
  EE.band_lookup "tmax_C" (ERA5x_convert img)
  = EE.Raster_map (fun v => (v - 273.15)%Q) <$> EE.band_lookup "maximum_2m_air_temperature" img /\
  EE.band_lookup "u10" (ERA5x_convert img) = EE.band_lookup "u_component_of_wind_10m" img /\
  EE.band_lookup "v10" (ERA5x_convert img) = EE.band_lookup "v_component_of_wind_10m" img /\
  (forall p,
     sample "tp_mm" (ERA5x_convert img) p
     = (fun v => (v * 1000)%Q) <$> sample "total_precipitation" img p) /\
  (forall p,
     sample "tmean_C" (ERA5x_convert img) p
     = (fun v => (v - 273.15)%Q) <$> sample "mean_2m_air_temperature" img p) /\
  (exists mm c,
     sample "tp_mm" (ERA5x_convert raw_example) 0 = Some mm /\ (mm == 1)%Q /\
     sample "tmean_C" (ERA5x_convert raw_example) 0 = Some c /\ (c == 0)%Q).
Proof.
  assert (B : forall dst, EE.band_lookup dst (ERA5x_convert img)
              = snd <$> List.find (fun b => String.eqb (fst b) dst) (EE.bands (ERA5x_convert img)))
    by done.
  assert (H6 :
    EE.band_lookup "tp_mm" (ERA5x_convert img)
    = EE.Raster_map (fun v => (v * 1000)%Q) <$> EE.band_lookup "total_precipitation" img /\
    EE.band_lookup "tmean_C" (ERA5x_convert img)
    = EE.Raster_map (fun v => (v - 273.15)%Q) <$> EE.band_lookup "mean_2m_air_temperature" img /\
    EE.band_lookup "tmin_C" (ERA5x_convert img)
    = EE.Raster_map (fun v => (v - 273.15)%Q) <$> EE.band_lookup "minimum_2m_air_temperature" img /\
    EE.band_lookup "tmax_C" (ERA5x_convert img)
    = EE.Raster_map (fun v => (v - 273.15)%Q) <$> EE.band_lookup "maximum_2m_air_temperature" img /\
    EE.band_lookup "u10" (ERA5x_convert img)
    = EE.Raster_map (fun v => v) <$> EE.band_lookup "u_component_of_wind_10m" img /\
    EE.band_lookup "v10" (ERA5x_convert img)
    = EE.Raster_map (fun v => v) <$> EE.band_lookup "v_component_of_wind_10m" img).
  { rewrite !B, ERA5x_convert_bands. cbn [map concat].
    destruct (EE.band_lookup "total_precipitation" img),
             (EE.band_lookup "mean_2m_air_temperature" img),
             (EE.band_lookup "minimum_2m_air_temperature" img),
             (EE.band_lookup "maximum_2m_air_temperature" img),
             (EE.band_lookup "u_component_of_wind_10m" img),
             (EE.band_lookup "v_component_of_wind_10m" img);
      repeat split; reflexivity. }
  destruct H6 as (Htp & Htmean & Htmin & Htmax & Hu & Hv).
  repeat split; try done.
  - rewrite Hu. destruct (EE.band_lookup "u_component_of_wind_10m" img) as [r |]; [| done].
    change (Some (EE.Raster_map (fun v => v) r) = Some r). by rewrite Raster_map_id.
  - rewrite Hv. destruct (EE.band_lookup "v_component_of_wind_10m" img) as [r |]; [| done].
    change (Some (EE.Raster_map (fun v => v) r) = Some r). by rewrite Raster_map_id.
  - intros p. unfold sample. rewrite Htp.
    destruct (EE.band_lookup "total_precipitation" img); simpl; [apply sample_map | done].
  - intros p. unfold sample. rewrite Htmean.
    destruct (EE.band_lookup "mean_2m_air_temperature" img); simpl; [apply sample_map | done].
  - exists (0.001 * 1000)%Q, (273.15 - 273.15)%Q. repeat split.
Qed.

(** ** The converter on objects *)

Lemma runs_bind {A B : Type} (s : Obj.store) (m : Obj.M A) (k : A -> Obj.M B)
    (Q : A -> Obj.store -> Prop) (R : B -> Obj.store -> Prop) :
  runs s m Q ->
  (forall a t, Q a (s ++ t) -> runs (s ++ t) (k a) R) ->
  runs s (Obj.bind m k) R.
Proof.
  intros (a & t & Hm & HQ) Hk.
  destruct (Hk a t HQ) as (b & t' & Hk' & HR).
  exists b, (t ++ t'). unfold Obj.bind. rewrite Hm, Hk', app_assoc. done.
Qed.

Lemma runs_weaken {A : Type} (s : Obj.store) (m : Obj.M A) (Q Q' : A -> Obj.store -> Prop) :
  runs s m Q -> (forall a s', Q a s' -> Q' a s') -> runs s m Q'.
Proof. intros (a & t & Hm & HQ) HQQ. exists a, t. auto. Qed.

Lemma runs_method (f : EE.Image -> EE.Image) (s : Obj.store) (r : Obj.ref) (i : EE.Image) :
  s !! r = Some i ->
  runs s (Obj.method f r) (fun r' s' => s' !! r' = Some (f i)).
Proof.
  intros Hr. exists (length s), [f i]. unfold Obj.method, Obj.bind, Obj.read, Obj.new.
  rewrite Hr. split; [done |]. by rewrite lookup_app_r, Nat.sub_diag.
Qed.

Lemma runs_read_all (s : Obj.store) (rs : list Obj.ref) (imgs : list EE.Image) :
  Forall2 (fun r i => s !! r = Some i) rs imgs ->
  Obj.read_all rs s = Some (imgs, s).
Proof.
  induction 1 as [| r i rs imgs Hr _ IH]; [done |].
  simpl. unfold Obj.bind, Obj.read, Obj.ret. by rewrite Hr, IH.
Qed.

Lemma runs_cat (s : Obj.store) (rs : list Obj.ref) (imgs : list EE.Image) :
  Forall2 (fun r i => s !! r = Some i) rs imgs ->
  runs s (Obj.cat rs) (fun r' s' => s' !! r' = Some (EE.Image_cat imgs)).
Proof.
  intros H. exists (length s), [EE.Image_cat imgs]. unfold Obj.cat, Obj.bind, Obj.new.
  rewrite (runs_read_all _ _ _ H). split; [done |]. by rewrite lookup_app_r, Nat.sub_diag.
Qed.

Lemma runs_copyProperties (s : Obj.store) (src dst : Obj.ref) (keys : list string)
    (si di : EE.Image) :
  s !! src = Some si -> s !! dst = Some di ->
  runs s (Obj.copyProperties src keys dst)
    (fun r' s' => s' !! r' = Some (EE.Element_copyProperties si keys di)).
Proof.
  intros Hs Hd. exists (length s), [EE.Element_copyProperties si keys di].
  unfold Obj.copyProperties, Obj.bind, Obj.read, Obj.new. rewrite Hd, Hs.
  split; [done |]. by rewrite lookup_app_r, Nat.sub_diag.
Qed.

Lemma store_mono (s t : Obj.store) (r : Obj.ref) (i : EE.Image) :
  s !! r = Some i -> (s ++ t) !! r = Some i.
Proof. apply lookup_app_l_Some. Qed.

Create HintDb store.

#[local] Hint Resolve store_mono : store.

(** One line [img.select(src).f().rename(dst)] of the converter. *)
Lemma runs_line (f : EE.Image -> EE.Image) (fm : Obj.ref -> Obj.M Obj.ref)
    (s : Obj.store) (img : Obj.ref) (i : EE.Image) (src dst : string) :
  (forall s0 r x, s0 !! r = Some x -> runs s0 (fm r) (fun r' s' => s' !! r' = Some (f x))) ->
  s !! img = Some i ->
  runs s (var a := Obj.select src img; var b := fm a; Obj.rename dst b)
    (fun r' s' => s' !! r' = Some (EE.Image_rename [dst] (f (EE.Image_select [src] i)))).
Proof.
  intros Hf Hi.
  eapply runs_bind; [by apply runs_method |]. intros a t Ha. cbv beta in Ha.
  eapply runs_bind; [by apply Hf |]. intros b t' Hb. cbv beta in Hb.
  by apply runs_method.
Qed.

Lemma runs_ERA5x_callback (s : Obj.store) (img : Obj.ref) (i : EE.Image) :
  s !! img = Some i ->
  runs s (ERA5x_callback img) (fun r' s' => s' !! r' = Some (ERA5x_convert i)).
Proof.
  intros Hi. unfold ERA5x_callback.
  eapply runs_bind;
    [apply (runs_line (EE.Image_multiply 1000) (Obj.multiply 1000));
       [intros; by apply runs_method | done] |].
  intros tp_mm t1 H1. cbv beta in H1.
  eapply runs_bind;
    [apply (runs_line (EE.Image_subtract 273.15) (Obj.subtract 273.15));
       [intros; by apply runs_method | eauto with store] |].
  intros tmean t2 H2. cbv beta in H2.
  eapply runs_bind;
    [apply (runs_line (EE.Image_subtract 273.15) (Obj.subtract 273.15));
       [intros; by apply runs_method | eauto with store] |].
  intros tmin t3 H3. cbv beta in H3.
  eapply runs_bind;
    [apply (runs_line (EE.Image_subtract 273.15) (Obj.subtract 273.15));
       [intros; by apply runs_method | eauto with store] |].
  intros tmax t4 H4. cbv beta in H4.
  eapply runs_bind; [eapply runs_bind; [apply runs_method; eauto 6 with store |] |].
  { intros a t Ha. cbv beta in Ha. apply runs_method, Ha. }
  intros u10 t5 H5. cbv beta in H5.
  eapply runs_bind; [eapply runs_bind; [apply runs_method; eauto 7 with store |] |].
  { intros a t Ha. cbv beta in Ha. apply runs_method, Ha. }
  intros v10 t6 H6. cbv beta in H6.
  eapply runs_bind; [apply runs_cat |].
  { repeat constructor; eauto 7 with store. }
  intros c t7 H7. cbv beta in H7.
  eapply runs_weaken; [apply runs_copyProperties; eauto 9 with store |].
  intros r' s' Hr'. exact Hr'.
Qed.

(** ** The acquisition time *)

Lemma ERA5x_convert_properties (img : EE.Image) :
  EE.properties (ERA5x_convert img)
  = match EE.properties img !! "system:time_start" with
    | Some v => {[ "system:time_start" := v ]}
    | None => ∅
    end.
Proof.
  unfold ERA5x_convert, EE.Element_copyProperties. simpl.
  destruct (EE.properties img !! "system:time_start"); [apply insert_empty | done].
Qed.

Lemma ERA5x_convert_get_time_start (img : EE.Image) :
  EE.Image_get "system:time_start" (ERA5x_convert img)
  = EE.Image_get "system:time_start" img.
Proof.
  unfold EE.Image_get. rewrite ERA5x_convert_properties.
  destruct (EE.properties img !! "system:time_start") eqn:E;
    [apply lookup_singleton_eq | apply lookup_empty].
Qed.

Lemma ERA5x_convert_calendar (a b : Z) (field : string) (img : EE.Image) :
  EE.Filter_passes (EE.Filter_calendarRange a b field) (ERA5x_convert img)
  = EE.Filter_passes (EE.Filter_calendarRange a b field) img.
Proof.
  unfold EE.Filter_passes, EE.time_start. by rewrite ERA5x_convert_get_time_start.
Qed.

Lemma ERA5x_convert_filter (a b : Z) (field : string) (ic : EE.ImageCollection) :
  EE.ImageCollection_filter (EE.Filter_calendarRange a b field)
    (EE.ImageCollection_map ERA5x_convert ic)
  = EE.ImageCollection_map ERA5x_convert
      (EE.ImageCollection_filter (EE.Filter_calendarRange a b field) ic).
Proof.
  unfold EE.ImageCollection_filter, EE.ImageCollection_map.
  induction ic as [| i ic IH]; [done |].
  cbn [map List.filter]. rewrite ERA5x_convert_calendar, IH.
  by destruct (EE.Filter_passes _ i).
Qed.

(** C8: the converted image carries the acquisition time
    'system:time_start' of its input unchanged, so filtering the converted
    series by calendar month or year selects the conversions of exactly
    the raw images that the same filter selects; and running the converter
    on an image object creates new objects only: the input image, like
    every object that existed before, is still in the store as it was. *)
Theorem ERA5x_convert_keeps_time_start (s : Obj.store) (r : Obj.ref) (img : EE.Image) :
  s !! r = Some img ->
  EE.Image_get "system:time_start" (ERA5x_convert img)
  = EE.Image_get "system:time_start" img /\
  (forall a b field ic,
     EE.ImageCollection_filter (EE.Filter_calendarRange a b field)
       (EE.ImageCollection_map ERA5x_convert ic)
     = EE.ImageCollection_map ERA5x_convert
         (EE.ImageCollection_filter (EE.Filter_calendarRange a b field) ic)) /\
  exists r' s',
    ERA5x_callback r s = Some (r', s') /\
    s' !! r' = Some (ERA5x_convert img) /\
    forall a x, s !! a = Some x -> s' !! a = Some x.
Proof.
  intros Hr. split; [apply ERA5x_convert_get_time_start |].
  split; [apply ERA5x_convert_filter |].
  destruct (runs_ERA5x_callback s r img Hr) as (r' & t & Hrun & Hres).
  exists r', (s ++ t). split; [done |]. split; [done |].
  intros a x. apply store_mono.
Qed.

(** Witness for C8: the converter run on the example image, the only
    object of the store. *)
Lemma ERA5x_convert_keeps_time_start_witness :
  EE.Image_get "system:time_start" (ERA5x_convert raw_example)
  = EE.Image_get "system:time_start" raw_example /\
  exists r' s',
    ERA5x_callback 0%nat [raw_example] = Some (r', s') /\
    s' !! r' = Some (ERA5x_convert raw_example) /\
    s' !! 0%nat = Some raw_example.
Proof.
  destruct (ERA5x_convert_keeps_time_start [raw_example] 0%nat raw_example eq_refl)
    as (Ht & _ & r' & s' & Hrun & Hres & Hframe).
  split; [exact Ht |]. exists r', s'.
  split; [exact Hrun |]. split; [exact Hres |]. apply Hframe. reflexivity.
Defined.

(** ** Annual series *)

Lemma band_lookup_select (band : string) (img : EE.Image) :
  EE.band_lookup band (EE.Image_select [band] img) = EE.band_lookup band img.
Proof.
  unfold EE.Image_select. simpl. destruct (EE.band_lookup band img) as [r |] eqn:E; [| done].
  unfold EE.band_lookup. simpl. by rewrite String.eqb_refl.
Qed.

Lemma omap_band_lookup_select (band : string) (ic : EE.ImageCollection) :
  omap (EE.band_lookup band) (EE.ImageCollection_select [band] ic)
  = omap (EE.band_lookup band) ic.
Proof.
  unfold EE.ImageCollection_select. induction ic as [| i ic IH]; [done |].
  cbn [map omap list_omap]. by rewrite band_lookup_select, IH.
Qed.

Lemma annualSeries_yimg_reduce (ic : EE.ImageCollection) (band : string) (method : JS.value) (y : Z) :
  annualSeries_yimg ic band method y
  = EE.Image_rename [band]
      (EE.ImageCollection_reduce (temporal_reducer method) (ycol ic band y)).
Proof.
  unfold temporal_reducer. destruct (decide _) as [-> | Hne].
  - apply annualSeries_yimg_sum.
  - by apply annualSeries_yimg_other.
Qed.

Lemma bands_select_single (band : string) (img : EE.Image) :
  EE.bands (EE.Image_select [band] img)
  = match EE.band_lookup band img with
    | Some r => [(band, r)]
    | None => []
    end.
Proof. unfold EE.Image_select. simpl. by destruct (EE.band_lookup band img). Qed.

Lemma bands_rename_reduce (band : string) (red : EE.Reducer) (c0 : EE.Image) (c : EE.ImageCollection) :
  EE.bands (EE.Image_rename [band] (EE.ImageCollection_reduce red (c0 :: c)))
  = match EE.bands c0 with
    | [] => []
    | b :: _ => [(band, EE.reduce_stack red (omap (EE.band_lookup (fst b)) (c0 :: c)))]
    end.
Proof.
  unfold EE.Image_rename, EE.ImageCollection_reduce. cbn [EE.bands].
  by destruct (EE.bands c0) as [| [n r] l].
Qed.

(** The bands of the yearly composite: the reduced band when the year has
    images and the first carries the band, none otherwise. *)
Lemma annualSeries_yimg_bands (ic : EE.ImageCollection) (band : string) (method : JS.value) (y : Z) :
  EE.bands (annualSeries_yimg ic band method y)
  = match year_images ic y with
    | i0 :: _ =>
        match EE.band_lookup band i0 with
        | Some _ =>
            [(band, EE.reduce_stack (temporal_reducer method)
                      (omap (EE.band_lookup band) (year_images ic y)))]
        | None => []
        end
    | [] => []
    end.
Proof.
  rewrite annualSeries_yimg_reduce. unfold ycol. fold (year_images ic y).
  rewrite <- (omap_band_lookup_select band (year_images ic y)).
  destruct (year_images ic y) as [| i0 rest]; [done |].
  change (EE.ImageCollection_select [band] (i0 :: rest))
    with (EE.Image_select [band] i0 :: EE.ImageCollection_select [band] rest).
  rewrite bands_rename_reduce, bands_select_single.
  by destruct (EE.band_lookup band i0).
Qed.

Lemma regionValue_single (band : string) (r : EE.Raster) (props : gmap string EE.value)
    (region : EE.Geometry) (scale : Q) :
  regionValue (EE.mkImage [(band, r)] props) band region scale
  = EE.areal EE.Reducer_mean region r.
Proof.
  unfold regionValue, EE.Image_reduceRegion, EE.Dictionary_get. simpl.
  by rewrite lookup_insert_eq.
Qed.

Lemma regionValue_no_band (props : gmap string EE.value) (band : string)
    (region : EE.Geometry) (scale : Q) :
  regionValue (EE.mkImage [] props) band region scale = EE.VNull.
Proof. reflexivity. Qed.

Lemma regionValue_bands (img : EE.Image) (band : string) (region : EE.Geometry) (scale : Q) :
  regionValue img band region scale
  = regionValue (EE.mkImage (EE.bands img) ∅) band region scale.
Proof. reflexivity. Qed.

(** The value of a year, in every case. *)
Lemma annualSeries_value (ic : EE.ImageCollection) (band : string) (method : JS.value)
    (region : EE.Geometry) (scale : Q) (y : Z) :
  regionValue (annualSeries_yimg ic band method y) band region scale
  = match year_images ic y with
    | i0 :: _ =>
        match EE.band_lookup band i0 with
        | Some _ =>
            EE.areal EE.Reducer_mean region
              (EE.reduce_stack (temporal_reducer method)
                 (omap (EE.band_lookup band) (year_images ic y)))
        | None => EE.VNull
        end
    | [] => EE.VNull
    end.
Proof.
  rewrite regionValue_bands, annualSeries_yimg_bands.
  destruct (year_images ic y) as [| i0 rest]; [done |].
  destruct (EE.band_lookup band i0); [apply regionValue_single | done].
Qed.

Lemma annualSeries_lookup (P : Params) ic band method region scale (y : Z) :
  (START_YEAR P <= y <= END_YEAR P)%Z ->
  annualSeries P ic band method region scale !! Z.to_nat (y - START_YEAR P)
  = Some (AnnualRecord y (regionValue (annualSeries_yimg ic band method y) band region scale)).
Proof.
  intros Hy. unfold annualSeries.
  rewrite list_lookup_fmap, List_sequence_lookup by lia.
  replace (START_YEAR P + Z.of_nat (Z.to_nat (y - START_YEAR P)))%Z with y by lia.
  reflexivity.
Qed.

Lemma AnnualRecord_year (y : Z) (v : EE.value) :
  EE.feature_properties (AnnualRecord y v) !! "year" = Some (EE.Number y).
Proof. unfold AnnualRecord, EE.Feature_new. simpl. by simplify_map_eq. Qed.

Lemma AnnualRecord_value (y : Z) (v : EE.value) :
  EE.feature_properties (AnnualRecord y v) !! "value" = Some v.
Proof. unfold AnnualRecord, EE.Feature_new. simpl. by simplify_map_eq. Qed.

Lemma annualSeries_years (P : Params) ic band method region scale :
  map (fun f => EE.feature_properties f !! "year") (annualSeries P ic band method region scale)
  = map (fun y => Some (EE.Number y)) (EE.List_sequence (START_YEAR P) (END_YEAR P)).
Proof.
  unfold annualSeries. rewrite map_map. apply map_ext. intros y.
  apply AnnualRecord_year.
Qed.

(** ** Areal reduction *)

Lemma reduceRegion_lookup (a : EE.ReduceRegionArgs) (img : EE.Image) (band : string) :
  EE.Image_reduceRegion a img !! band
  = EE.areal (EE.reducer a) (EE.geometry a) <$> EE.band_lookup band img.
Proof.
  unfold EE.Image_reduceRegion, EE.band_lookup.
  induction (EE.bands img) as [| [n r] l IH]; [done |].
  cbn [map list_to_map foldr List.find fst snd]. simpl.
  destruct (String.eqb_spec n band) as [-> | Hne].
  - by rewrite lookup_insert_eq.
  - by rewrite lookup_insert_ne.
Qed.

Lemma regionValue_lookup (img : EE.Image) (band : string) (region : EE.Geometry) (scale : Q) :
  regionValue img band region scale
  = default EE.VNull (EE.areal EE.Reducer_mean region <$> EE.band_lookup band img).
Proof. unfold regionValue, EE.Dictionary_get. by rewrite reduceRegion_lookup. Qed.

(** ** Reductions of constant data *)

Lemma Qsum_const (v : Q) (l : list Q) :
  Forall (fun x => x == v)%Q l ->
  (EE.Qsum l == inject_Z (Z.of_nat (length l)) * v)%Q.
Proof.
  induction 1 as [| x l Hx _ IH].
  - simpl. ring.
  - cbn [EE.Qsum length]. rewrite IH, Hx, Nat2Z.inj_succ.
    unfold Z.succ. rewrite inject_Z_plus. ring.
Qed.

Lemma Reducer_apply_const (red : EE.Reducer) (v : Q) (l : list Q) :
  red <> EE.Reducer_median ->
  l <> [] -> Forall (fun x => x == v)%Q l ->
  exists w, EE.Reducer_apply red l = Some w /\
    (w == match red with
          | EE.Reducer_sum => inject_Z (Z.of_nat (length l)) * v
          | _ => v
          end)%Q.
Proof.
  intros Hred Hne Hall. destruct l as [| x l]; [done |].
  destruct red; [| | done]; eexists; (split; [reflexivity |]).
  - by apply Qsum_const.
  - rewrite (Qsum_const v) by done.
    field. intros H0. unfold Qeq in H0. simpl in H0. lia.
Qed.

Lemma column_const (n : nat) (c : Q) (rs : list EE.Raster) (p : nat) :
  Forall (fun r => r = replicate n (Some c)) rs -> (p < n)%nat ->
  EE.column p rs = replicate (length rs) c.
Proof.
  intros Hall Hp. unfold EE.column. induction Hall as [| r rs -> _ IH]; [done |].
  cbn [omap list_omap length replicate]. rewrite lookup_replicate_2 by done.
  simpl. by rewrite IH.
Qed.

Lemma reduce_stack_const (red : EE.Reducer) (n : nat) (c : Q) (rs : list EE.Raster) :
  rs <> [] -> Forall (fun r => r = replicate n (Some c)) rs ->
  EE.reduce_stack red rs = replicate n (EE.Reducer_apply red (replicate (length rs) c)).
Proof.
  intros Hne Hall. destruct rs as [| r0 rs]; [done |].
  unfold EE.reduce_stack.
  assert (r0 = replicate n (Some c)) as -> by (by inversion Hall).
  rewrite length_replicate.
  assert (G : forall k, (k <= n)%nat ->
            map (fun p => EE.Reducer_apply red (EE.column p (replicate n (Some c) :: rs)))
              (seq (n - k) k)
            = replicate k (EE.Reducer_apply red (replicate (length (replicate n (Some c) :: rs)) c))).
  { induction k as [| k IH]; intros Hk; [done |].
    cbn [seq map replicate]. rewrite (column_const n c) by (done || lia). f_equal.
    replace (S (n - S k)) with (n - k)%nat by lia. apply IH. lia. }
  specialize (G n (Nat.le_refl n)). by rewrite Nat.sub_diag in G.
Qed.

Lemma region_samples_const (g : EE.Geometry) (n : nat) (w : Q) :
  Forall (fun x => x = w) (EE.region_samples g (replicate n (Some w))) /\
  ((exists p, p ∈ g /\ (p < n)%nat) -> EE.region_samples g (replicate n (Some w)) <> []).
Proof.
  unfold EE.region_samples. split.
  - induction (elements g) as [| p l IH]; [constructor |].
    cbn [omap list_omap]. destruct (decide (p < n)%nat) as [Hp | Hp].
    + rewrite lookup_replicate_2 by done. simpl. by constructor.
    + rewrite (proj1 (lookup_replicate_None n (Some w) p)) by lia. done.
  - intros (p & Hp & Hn). apply elem_of_elements in Hp.
    induction (elements g) as [| q l IH]; [by apply elem_of_nil in Hp |].
    cbn [omap list_omap]. destruct (decide (q < n)%nat) as [Hq | Hq].
    + rewrite lookup_replicate_2 by done. simpl. done.
    + rewrite (proj1 (lookup_replicate_None n (Some w) q)) by lia. simpl.
      apply elem_of_cons in Hp as [-> | Hp]; [done | by apply IH].
Qed.

Lemma areal_mean_const (g : EE.Geometry) (n : nat) (w : Q) :
  (exists p, p ∈ g /\ (p < n)%nat) ->
  exists v, EE.areal EE.Reducer_mean g (replicate n (Some w)) = EE.VNum v /\ (v == w)%Q.
Proof.
  intros Hp. destruct (region_samples_const g n w) as [Hall Hne].
  specialize (Hne Hp). unfold EE.areal.
  destruct (Reducer_apply_const EE.Reducer_mean w
              (EE.region_samples g (replicate n (Some w)))) as (v & -> & Hv);
    [done | done | | by exists v].
  eapply Forall_impl; [exact Hall |]. by intros x ->.
Qed.

(** The value of a year whose images all hold the constant [c] on a grid
    of [n] pixels, over a region that meets the grid. *)
Lemma annualSeries_constant_year (ic : EE.ImageCollection) (band : string) (method : JS.value)
    (region : EE.Geometry) (scale : Q) (y : Z) (n : nat) (c : Q) :
  year_images ic y <> [] ->
  Forall (fun i => EE.band_lookup band i = Some (replicate n (Some c))) (year_images ic y) ->
  (exists p, p ∈ region /\ (p < n)%nat) ->
  exists v,
    regionValue (annualSeries_yimg ic band method y) band region scale = EE.VNum v /\
    (v == if decide (method = JS.Str "sum")
          then inject_Z (Z.of_nat (length (year_images ic y))) * c
          else c)%Q.
Proof.
  intros Hne Hall Hp. rewrite annualSeries_value.
  destruct (year_images ic y) as [| i0 rest] eqn:E; [done |].
  assert (Hi0 : EE.band_lookup band i0 = Some (replicate n (Some c))) by (by inversion Hall).
  rewrite Hi0.
  assert (Hstack : omap (EE.band_lookup band) (i0 :: rest)
                   = replicate (length (i0 :: rest)) (replicate n (Some c))).
  { clear -Hall. induction Hall as [| i l Hi _ IH]; [done |].
    cbn [omap list_omap length replicate]. by rewrite Hi, IH. }
  rewrite Hstack, (reduce_stack_const _ n c);
    [| done | apply Forall_forall; intros r Hr; by apply elem_of_replicate in Hr as [-> _]].
  rewrite length_replicate.
  assert (Hred : temporal_reducer method <> EE.Reducer_median)
    by (unfold temporal_reducer; by destruct (decide _)).
  destruct (Reducer_apply_const (temporal_reducer method) c (replicate (length (i0 :: rest)) c))
    as (w & -> & Hw); [done | done | apply Forall_forall; intros x Hx;
                                       by apply elem_of_replicate in Hx as [-> _] |].
  destruct (areal_mean_const region n w Hp) as (v & -> & Hv).
  exists v. split; [done |]. rewrite Hv, Hw, length_replicate.
  unfold temporal_reducer. by destruct (decide _).
Qed.

(** C4: the annual series holds exactly one record per year of
    [START_YEAR, END_YEAR], in ascending year order (the record at position
    y - START_YEAR is the record of year y); when the year has images
    carrying the band, its value is the areal mean over the region of the
    pixel-wise temporal reduction of that year's images, the reduction
    being the sum for method 'sum' and the mean for method 'mean'; and a
    year whose images all hold the constant c yields the number of images
    times c under 'sum' (12 months of 10 mm: 120) and c otherwise. *)
Theorem annualSeries_one_record_per_year (P : Params) (ic : EE.ImageCollection) (band : string)
    (method : JS.value) (region : EE.Geometry) (scale : Q) :
  let series := annualSeries P ic band method region scale in
  length series = Z.to_nat (END_YEAR P - START_YEAR P + 1) /\
  map (fun f => EE.feature_properties f !! "year") series
  = map (fun y => Some (EE.Number y)) (EE.List_sequence (START_YEAR P) (END_YEAR P)) /\
  (forall y, (START_YEAR P <= y <= END_YEAR P)%Z ->
     series !! Z.to_nat (y - START_YEAR P)
     = Some (AnnualRecord y
               (regionValue (annualSeries_yimg ic band method y) band region scale))) /\
  (forall y i0 rest,
     year_images ic y = i0 :: rest -> is_Some (EE.band_lookup band i0) ->
     regionValue (annualSeries_yimg ic band method y) band region scale
     = EE.areal EE.Reducer_mean region
         (EE.reduce_stack (temporal_reducer method)
            (omap (EE.band_lookup band) (year_images ic y)))) /\
  (temporal_reducer (JS.Str "sum") = EE.Reducer_sum /\
   temporal_reducer (JS.Str "mean") = EE.Reducer_mean) /\
  (forall y n c,
     year_images ic y <> [] ->
     Forall (fun i => EE.band_lookup band i = Some (replicate n (Some c))) (year_images ic y) ->
     (exists p, p ∈ region /\ (p < n)%nat) ->
     exists v,
       regionValue (annualSeries_yimg ic band method y) band region scale = EE.VNum v /\
       (v == if decide (method = JS.Str "sum")
             then inject_Z (Z.of_nat (length (year_images ic y))) * c
             else c)%Q).
Proof.
  cbv zeta. split; [apply annualSeries_length |]. split; [apply annualSeries_years |].
  split; [intros y Hy; by apply annualSeries_lookup |]. split; [| split; [done |]].
  - intros y i0 rest Himgs [r Hr]. rewrite annualSeries_value, Himgs, Hr. done.
  - intros y n c. apply annualSeries_constant_year.
Qed.

(** Witness for C4: twelve months of 10 mm in 2001 sum to 120. *)
Lemma annualSeries_one_record_per_year_witness :
  exists v,
    annualSeries series_params constant_series "tp_mm" (JS.Str "sum") {[ 0%nat; 1%nat ]} 5000
      !! 1%nat = Some (AnnualRecord 2001 (EE.VNum v)) /\
    (v == 120)%Q.
Proof.
  pose proof (annualSeries_one_record_per_year series_params constant_series "tp_mm"
                (JS.Str "sum") {[ 0%nat; 1%nat ]} 5000) as (_ & _ & Hrec & _ & _ & Hconst).
  destruct (Hconst 2001%Z 2%nat 10%Q) as (v & Hv & Hq).
  - vm_compute. discriminate.
  - vm_compute. repeat constructor.
  - exists 0%nat. split; [set_solver | lia].
  - exists v. split.
    + rewrite <- Hv. apply (Hrec 2001%Z). simpl. lia.
    + rewrite Hq. vm_compute. reflexivity.
Defined.

(** ** AOI resolution *)

Lemma loadAOIGeometry_elem_of (assets : EE.AssetStore) (assetId : string) (p : nat) :
  p ∈ loadAOIGeometry assets assetId
  <-> exists f g, f ∈ EE.FeatureCollection_load assets assetId /\
        EE.feature_geometry f = Some g /\ p ∈ g.
Proof.
  unfold loadAOIGeometry, EE.FeatureCollection_geometry.
  rewrite elem_of_union_list. split.
  - intros (g & Hg & Hp). apply list_elem_of_omap in Hg as (f & Hf & Hfg). eauto.
  - intros (f & g & Hf & Hfg & Hp). exists g. split; [| done].
    apply list_elem_of_omap. eauto.
Qed.

Lemma script_export_tasks_length (P : Params) (assets : EE.AssetStore) (catalog : EE.Catalog) :
  length (export_tasks (script P assets catalog)) = 48%nat.
Proof.
  unfold script. cbn [export_tasks].
  rewrite !exportMonthlyRasters_append, !length_app, !length_map. reflexivity.
Qed.

(** C1 (as the code has it): AOI resolution never fails.  For every asset
    reference loadAOIGeometry returns one geometry, the union of the
    geometries of all the features of the asset; it agrees with the
    resolver of the specification on every reference that resolves to at
    least one geometry, and returns the empty geometry where the
    specification asks for InvalidAOIError; and whatever the asset store,
    the run goes on to plan its 48 exports and build its 8 charts. *)
Theorem loadAOIGeometry_union (assets : EE.AssetStore) (assetId : string) :
  (forall p, p ∈ loadAOIGeometry assets assetId
     <-> exists f g, f ∈ EE.FeatureCollection_load assets assetId /\
           EE.feature_geometry f = Some g /\ p ∈ g) /\
  match AOIResolver_spec assets assetId with
  | inr g => loadAOIGeometry assets assetId = g
  | inl InvalidAOIError => loadAOIGeometry assets assetId = ∅
  end /\
  (forall P catalog,
     length (export_tasks (script P assets catalog)) = 48%nat /\
     length (monthly_charts (script P assets catalog)) = 4%nat /\
     length (annual_charts (script P assets catalog)) = 4%nat).
Proof.
  split; [apply loadAOIGeometry_elem_of |]. split.
  - unfold AOIResolver_spec, loadAOIGeometry, EE.FeatureCollection_geometry.
    by destruct (omap _ _).
  - intros P catalog. split; [apply script_export_tasks_length | done].
Qed.

(** C1 (as stated) fails: on an asset without any geometry the resolver
    of the specification raises InvalidAOIError, while loadAOIGeometry
    returns the empty geometry and the run continues: the 48 exports are
    planned, and the annual precipitation chart gets its 31 yearly
    records, each reduced over the empty region to null. *)
Lemma loadAOIGeometry_no_InvalidAOIError :
  AOIResolver_spec empty_assets "aoi" = inl InvalidAOIError /\
  loadAOIGeometry empty_assets "aoi" = ∅ /\
  inr (loadAOIGeometry empty_assets "aoi") <> AOIResolver_spec empty_assets "aoi" /\
  length (export_tasks (script default_params empty_assets example_catalog)) = 48%nat /\
  (features <$> head (annual_charts (script default_params empty_assets example_catalog)))
  = Some (map (fun y => AnnualRecord y EE.VNull) (EE.List_sequence 1990 2020)).
Proof.
  split; [reflexivity |]. split; [reflexivity |]. split; [discriminate |].
  split; [apply script_export_tasks_length |].
  vm_compute. reflexivity.
Qed.

(** ** The annual chart and its trend line *)

(** C7 (as the code has it): the annual chart builder hands the annual
    series, unmodified, to the chart as its features with x = 'year' and
    y = 'value', and asks the chart renderer for a linear trend line with
    its R2 shown; the request names no slope, intercept or R2 and is the
    same whatever the series. *)
Theorem drawAnnualLineChart_delegates_trend (P : Params) (assets : EE.AssetStore)
    (ic : EE.ImageCollection) (band : string) (method : JS.value)
    (title_ yLabel trendColor : string) :
  let chart := drawAnnualLineChart P assets ic band method title_ yLabel trendColor in
  features chart = annualSeries P ic band method (AOI P assets) (nativeScale P) /\
  xProperty chart = "year" /\
  yProperties chart = ["value"] /\
  chartType chart = "LineChart" /\
  trendlines (options chart)
  = {[ 0%nat := {| trend_type := "linear"; trend_color := trendColor;
                   trend_lineWidth := 3; showR2 := true; visibleInLegend := true |} ]} /\
  (forall ic' band' method',
     options (drawAnnualLineChart P assets ic' band' method' title_ yLabel trendColor)
     = options chart).
Proof. cbv zeta. repeat split. Qed.

(** C7 (as stated) fails: the rising series 1, 2, 3 over 2000..2002 has
    best-fit slope 1 and intercept -1999, the falling series 3, 2, 1 has
    slope -1, and the builder produces the same options, trend line
    included, for both: no function of what the builder adds to the series
    gives the regression line. *)
Lemma drawAnnualLineChart_no_regression :
  (regression_slope (series_points (features (trend_chart [1; 2; 3]%Q))) == 1)%Q /\
  (regression_intercept (series_points (features (trend_chart [1; 2; 3]%Q))) == -1999)%Q /\
  (regression_slope (series_points (features (trend_chart [3; 2; 1]%Q))) == -1)%Q /\
  options (trend_chart [1; 2; 3]%Q) = options (trend_chart [3; 2; 1]%Q) /\
  ~ (exists f : ChartOptions -> Q, forall values,
       (f (options (trend_chart values))
        == regression_slope (series_points (features (trend_chart values))))%Q).
Proof.
  assert (Hopt : forall values, options (trend_chart values) = options (trend_chart []))
    by reflexivity.
  pose proof (eq_refl : Qeq_bool (regression_slope (series_points (features (trend_chart [1; 2; 3]%Q)))) 1 = true) as Hup.
  pose proof (eq_refl : Qeq_bool (regression_intercept (series_points (features (trend_chart [1; 2; 3]%Q)))) (-1999) = true) as Hic.
  pose proof (eq_refl : Qeq_bool (regression_slope (series_points (features (trend_chart [3; 2; 1]%Q)))) (-1) = true) as Hdown.
  apply Qeq_bool_eq in Hup, Hic, Hdown.
  split; [exact Hup |]. split; [exact Hic |]. split; [exact Hdown |].
  split; [exact (eq_trans (Hopt [1; 2; 3]%Q) (eq_sym (Hopt [3; 2; 1]%Q))) |].
  intros (f & Hf).
  pose proof (Hf [1; 2; 3]%Q) as H1. pose proof (Hf [3; 2; 1]%Q) as H2.
  rewrite (Hopt [1; 2; 3]%Q) in H1. rewrite (Hopt [3; 2; 1]%Q) in H2.
  revert Hup Hdown H1 H2.
  generalize (regression_slope (series_points (features (trend_chart [1; 2; 3]%Q)))).
  generalize (regression_slope (series_points (features (trend_chart [3; 2; 1]%Q)))).
  generalize (f (options (trend_chart []))).
  intros o b a Hup Hdown H1 H2.
  assert (Habs : (1 == -1)%Q).
  { rewrite <- Hup, <- Hdown, <- H1, <- H2. reflexivity. }
  discriminate Habs.
Qed.

(* ===================================================================== *)
(** * Further properties of the script *)
(* ===================================================================== *)

(** ** File names *)

Lemma decimal_value_number_to_string (z : Z) :
  decimal_value (JS.number_to_string z) = Some z.
Proof.
  unfold decimal_value, JS.number_to_string.
  rewrite NilZero.isi.
  - simpl. by rewrite DecimalZ.of_to.
  - destruct z as [| p | p]; simpl; try discriminate.
    intros [= H]. by apply (DecimalPos.Unsigned.to_uint_nonnil p).
  - destruct z as [| p | p]; simpl; try discriminate.
    intros [= H]. by apply (DecimalPos.Unsigned.to_uint_nonnil p).
Qed.

Lemma pad2_digits (m : Z) : (0 <= m)%Z -> decimal_value (pad2 m) = Some m.
Proof.
  intros Hm. unfold pad2. destruct (Z.ltb_spec m 10) as [Hlt | Hge].
  - assert (Hall : forallb (fun k => bool_decide (decimal_value (pad2 k) = Some k))
                     (EE.List_sequence 0 9) = true) by (vm_compute; reflexivity).
    rewrite forallb_forall in Hall.
    assert (Hin : In m (EE.List_sequence 0 9)).
    { unfold EE.List_sequence. apply in_map_iff. exists (Z.to_nat m). split; [lia |].
      apply in_seq. simpl. lia. }
    specialize (Hall m Hin). apply bool_decide_eq_true in Hall.
    unfold pad2 in Hall. destruct (Z.ltb_spec m 10); [done | lia].
  - unfold JS.concat. simpl. apply decimal_value_number_to_string.
Qed.

Lemma pad2_inj (m n : Z) : (0 <= m)%Z -> (0 <= n)%Z -> pad2 m = pad2 n -> m = n.
Proof.
  intros Hm Hn H. apply (f_equal decimal_value) in H.
  rewrite !pad2_digits in H by done. congruence.
Qed.

(** X1: The month suffix of a file name reads back as the month: for every
    integer m from 0 to Number.MAX_SAFE_INTEGER (the integers a JavaScript
    number holds exactly and prints digit by digit) the decimal digits of
    pad2(m), a leading zero included, denote m; so two different such
    months never get the same suffix. *)
Theorem pad2_decimal_value (m : Z) :
  (0 <= m <= JS.MAX_SAFE_INTEGER)%Z ->
  decimal_value (pad2 m) = Some m /\
  (forall n, (0 <= n <= JS.MAX_SAFE_INTEGER)%Z -> pad2 m = pad2 n -> m = n).
Proof.
  intros [Hm _]. split; [by apply pad2_digits |].
  intros n [Hn _]. by apply pad2_inj.
Qed.

(** Witness for X1: month 7. *)
Lemma pad2_decimal_value_witness :
  decimal_value (pad2 7) = Some 7%Z /\
  (forall n, (0 <= n <= JS.MAX_SAFE_INTEGER)%Z -> pad2 7 = pad2 n -> 7%Z = n).
Proof. apply pad2_decimal_value. unfold JS.MAX_SAFE_INTEGER. lia. Defined.

(** ** Export tasks *)

Lemma exportMonthlyRasters_names (P : Params) assets monthlyIC band varLabel tasks :
  map fileNamePrefix (exportMonthlyRasters P assets monthlyIC band varLabel tasks)
  = map fileNamePrefix tasks ++ export_names P varLabel.
Proof.
  rewrite exportMonthlyRasters_append, map_app, map_map. unfold export_names.
  apply (f_equal (app (map fileNamePrefix tasks))).
  apply map_ext. intros m. apply exportTask_fileBase.
Qed.

Lemma export_names_NoDup (P : Params) (varLabel : string) : NoDup (export_names P varLabel).
Proof.
  unfold export_names. apply (NoDup_fmap_2_strong _ MONTHS).
  - intros m n Hm Hn H.
    repeat (apply String.app_inj in H).
    apply pad2_inj; [| | done].
    + unfold MONTHS in Hm. repeat (apply elem_of_cons in Hm as [-> | Hm]; [lia |]).
      by apply elem_of_nil in Hm.
    + unfold MONTHS in Hn. repeat (apply elem_of_cons in Hn as [-> | Hn]; [lia |]).
      by apply elem_of_nil in Hn.
  - unfold MONTHS. apply NoDup_ListNoDup. repeat constructor; simpl; intuition lia.
Qed.

Lemma export_names_label (P : Params) (varLabel name : string) :
  name ∈ export_names P varLabel -> exists rest, name = "ERA5_" +:+ varLabel +:+ "_" +:+ rest.
Proof.
  unfold export_names. intros H. apply list_elem_of_fmap in H as (m & -> & _). eauto.
Qed.

Lemma string_app_assoc (a b c : string) : (a +:+ b) +:+ c = a +:+ (b +:+ c).
Proof.
  induction a as [| x a IH]; [done |].
  change (String x ((a +:+ b) +:+ c) = String x (a +:+ (b +:+ c))). by rewrite IH.
Qed.

Lemma app_eq_prefix (a b r1 r2 : string) :
  a +:+ r1 = b +:+ r2 -> String.prefix a b = true \/ String.prefix b a = true.
Proof.
  revert b. induction a as [| c a IH]; intros b H; [left; by destruct b |].
  destruct b as [| d b]; [by right |].
  change (String c (a +:+ r1) = String d (b +:+ r2)) in H.
  injection H as -> H. apply IH in H. simpl.
  destruct (Ascii.ascii_dec d d); [done | congruence].
Qed.

(** The variable labels of the four exported climatologies. *)
Lemma export_labels_apart (l1 l2 : string) :
  l1 ∈ ["TPmm"; "TmeanC"; "TminC"; "TmaxC"] ->
  l2 ∈ ["TPmm"; "TmeanC"; "TminC"; "TmaxC"] ->
  String.prefix ("ERA5_" +:+ l1 +:+ "_") ("ERA5_" +:+ l2 +:+ "_") = true \/
  String.prefix ("ERA5_" +:+ l2 +:+ "_") ("ERA5_" +:+ l1 +:+ "_") = true ->
  l1 = l2.
Proof.
  intros H1 H2 H.
  repeat (apply elem_of_cons in H1 as [-> | H1]); [.. | by apply elem_of_nil in H1];
    repeat (apply elem_of_cons in H2 as [-> | H2]); try (by apply elem_of_nil in H2);
    try reflexivity; vm_compute in H; destruct H; discriminate.
Qed.

(** X2: The 48 export tasks of a run have pairwise different file names: the
    names are those of the four labels TPmm, TmeanC, TminC and TmaxC, each
    over the twelve months in order; the description of every task is its
    file name prefix; and no name occurs twice, whatever the years and the
    metric. *)
Theorem script_export_names_unique (P : Params) (assets : EE.AssetStore) (catalog : EE.Catalog) :
  map fileNamePrefix (export_tasks (script P assets catalog))
  = export_names P "TPmm" ++ export_names P "TmeanC"
    ++ export_names P "TminC" ++ export_names P "TmaxC" /\
  map description (export_tasks (script P assets catalog))
  = map fileNamePrefix (export_tasks (script P assets catalog)) /\
  NoDup (map fileNamePrefix (export_tasks (script P assets catalog))).
Proof.
  assert (Hnames : map fileNamePrefix (export_tasks (script P assets catalog))
            = export_names P "TPmm" ++ export_names P "TmeanC"
              ++ export_names P "TminC" ++ export_names P "TmaxC").
  { unfold script. cbn [export_tasks]. rewrite !exportMonthlyRasters_names.
    change (map fileNamePrefix []) with (@nil string).
    by rewrite app_nil_l, <- !app_assoc. }
  split; [exact Hnames |]. split.
  - unfold script. cbn [export_tasks]. rewrite !exportMonthlyRasters_append.
    rewrite !map_app, !map_map. reflexivity.
  - rewrite Hnames.
    replace (export_names P "TPmm" ++ export_names P "TmeanC"
             ++ export_names P "TminC" ++ export_names P "TmaxC")
      with (["TPmm"; "TmeanC"; "TminC"; "TmaxC"] ≫= export_names P)
      by (cbn [mbind list_bind]; by rewrite app_nil_r).
    apply NoDup_bind.
    + intros l1 l2 x H1 H2 Hx1 Hx2.
      apply export_names_label in Hx1 as (r1 & ->).
      apply export_names_label in Hx2 as (r2 & Heq).
      apply export_labels_apart; [done | done |].
      apply (app_eq_prefix _ _ r1 r2).
      by rewrite !string_app_assoc.
    + intros l _. apply export_names_NoDup.
    + apply NoDup_ListNoDup. repeat constructor; simpl; intuition discriminate.
Qed.

(** ** Clipping and selection *)

Lemma band_lookup_clip (b : string) (g : EE.Geometry) (img : EE.Image) :
  EE.band_lookup b (EE.Image_clip g img)
  = imap (fun p v => if decide (p ∈ g) then v else None) <$> EE.band_lookup b img.
Proof.
  unfold EE.band_lookup, EE.Image_clip. cbn [EE.bands].
  induction (EE.bands img) as [| [n r] l IH]; [done |].
  cbn [map List.find fst snd]. destruct (String.eqb n b); [done | apply IH].
Qed.

Lemma sample_clip (b : string) (g : EE.Geometry) (img : EE.Image) (p : nat) :
  sample b (EE.Image_clip g img) p = if decide (p ∈ g) then sample b img p else None.
Proof.
  unfold sample. rewrite band_lookup_clip.
  destruct (EE.band_lookup b img) as [r |]; [| by destruct (decide _)].
  simpl. rewrite list_lookup_imap.
  destruct (r !! p) as [v |]; simpl; by destruct (decide _).
Qed.

Lemma band_lookup_select_other (b band : string) (img : EE.Image) :
  b <> band -> EE.band_lookup b (EE.Image_select [band] img) = None.
Proof.
  intros Hne. unfold EE.band_lookup. rewrite bands_select_single.
  destruct (EE.band_lookup band img) as [r |]; [| done].
  cbn [List.find fst]. destruct (String.eqb_spec band b); [congruence | done].
Qed.

Lemma months_filter (m : Z) :
  m ∈ MONTHS -> List.filter (fun k => (k =? m)%Z) MONTHS = [m].
Proof.
  unfold MONTHS. intros Hm.
  repeat (apply elem_of_cons in Hm as [-> | Hm]; [reflexivity |]).
  by apply elem_of_nil in Hm.
Qed.

Lemma monthlyClimatology_pick (ic : EE.ImageCollection) (band : string) (metric : JS.value) (m : Z) :
  m ∈ MONTHS ->
  ee_Image (EE.ImageCollection_first
    (EE.ImageCollection_filter (EE.Filter_eq "month" (EE.Number m))
       (monthlyClimatology ic band metric)))
  = monthlyClimatology_img ic band metric m.
Proof.
  intros Hm. rewrite monthlyClimatology_map, composite_filter, months_filter by done.
  reflexivity.
Qed.

(** X3: What a task exports: no sample outside the AOI (the image is clipped
    to it) and no band other than the requested one; and when the
    collection is a monthly climatology, the image of month k is the
    composite of month k, restricted to the band and clipped. *)
Theorem exportTask_image_clipped (P : Params) (assets : EE.AssetStore)
    (monthlyIC : EE.ImageCollection) (band varLabel : string) (m : Z) :
  (forall b p, p ∉ AOI P assets ->
     sample b (image (exportTask P assets monthlyIC band varLabel m)) p = None) /\
  (forall b, b <> band ->
     EE.band_lookup b (image (exportTask P assets monthlyIC band varLabel m)) = None) /\
  (forall ic metric,
     Forall (fun k =>
       image (exportTask P assets (monthlyClimatology ic band metric) band varLabel k)
       = EE.Image_clip (AOI P assets)
           (EE.Image_select [band] (monthlyClimatology_img ic band metric k))) MONTHS).
Proof.
  split; [| split].
  - intros b p Hp. unfold exportTask. cbn [image]. rewrite sample_clip.
    by rewrite decide_False.
  - intros b Hb. unfold exportTask. cbn [image].
    rewrite band_lookup_clip, band_lookup_select_other by done. done.
  - intros ic metric. apply Forall_forall. intros k Hk.
    unfold exportTask. cbn [image]. by rewrite monthlyClimatology_pick.
Qed.

(** X4: exportMonthlyRasters leaves the tasks already queued in place and
    appends exactly twelve, in month order, named after the label, all
    sent to DRIVE_FOLDER with the AOI as region, nativeScale as scale and
    the same pixel cap. *)
Theorem exportMonthlyRasters_appends (P : Params) (assets : EE.AssetStore)
    (monthlyIC : EE.ImageCollection) (band varLabel : string) (tasks : list ExportTask) :
  exists new,
    exportMonthlyRasters P assets monthlyIC band varLabel tasks = tasks ++ new /\
    length new = 12%nat /\
    map fileNamePrefix new = export_names P varLabel /\
    Forall (fun t =>
      folder t = DRIVE_FOLDER P /\ region t = AOI P assets /\
      export_scale t = nativeScale P /\ export_maxPixels t = MAX_PIXELS) new.
Proof.
  exists (map (exportTask P assets monthlyIC band varLabel) MONTHS).
  split; [apply exportMonthlyRasters_append |]. split; [done |]. split.
  - rewrite map_map. apply map_ext. intros m. apply exportTask_fileBase.
  - apply List.Forall_map, Forall_forall. intros m _. done.
Qed.

(** ** Monthly chart rows *)

Lemma regionValue_select (img : EE.Image) (band : string) (region : EE.Geometry) (scale : Q) :
  regionValue (EE.Image_select [band] img) band region scale
  = regionValue img band region scale.
Proof. by rewrite !regionValue_lookup, band_lookup_select. Qed.

Lemma monthlyValuesForChart_map (monthlyIC : EE.ImageCollection) (band : string)
    (region : EE.Geometry) (scale : Q) :
  monthlyValuesForChart monthlyIC band region scale
  = map (fun ml =>
      ChartRow (fst ml) (snd ml)
        (regionValue
           (ee_Image (EE.ImageCollection_first
              (EE.ImageCollection_filter (EE.Filter_eq "month" (EE.Number (fst ml))) monthlyIC)))
           band region scale)) MONTH_LABELS.
Proof.
  unfold monthlyValuesForChart. rewrite List_sequence_months.
  unfold MONTH_LABELS, MONTHS, MONTH_NAMES. cbn [zip zip_with map].
  rewrite !regionValue_select. reflexivity.
Qed.

(** X5: monthlyValuesForChart always returns twelve rows, for the months 1
    to 12 in order, labelled Jan, Feb, ..., Dec, whatever the collection,
    the band and the region; each row is a feature without geometry. *)
Theorem monthlyValuesForChart_rows (monthlyIC : EE.ImageCollection) (band : string)
    (region : EE.Geometry) (scale : Q) :
  let rows := monthlyValuesForChart monthlyIC band region scale in
  map (fun f => (EE.feature_properties f !! "month", EE.feature_properties f !! "label")) rows
  = map (fun ml => (Some (EE.Number (fst ml)), Some (EE.VStr (snd ml)))) MONTH_LABELS /\
  Forall (fun f => EE.feature_geometry f = None) rows /\
  length rows = 12%nat.
Proof.
  cbv zeta. rewrite monthlyValuesForChart_map. split; [| split].
  - rewrite map_map. apply map_ext. intros [m l]. unfold ChartRow, EE.Feature_new. simpl.
    by simplify_map_eq.
  - apply List.Forall_map, Forall_forall. intros [m l] _. done.
  - by rewrite length_map.
Qed.

(** X6: On a monthly climatology the chart row of month m reports the areal
    mean of the composite of month m: chart and climatology agree month by
    month. *)
Theorem monthlyValuesForChart_of_climatology (ic : EE.ImageCollection) (band : string)
    (metric : JS.value) (region : EE.Geometry) (scale : Q) :
  monthlyValuesForChart (monthlyClimatology ic band metric) band region scale
  = map (fun ml =>
      ChartRow (fst ml) (snd ml)
        (regionValue (monthlyClimatology_img ic band metric (fst ml)) band region scale))
      MONTH_LABELS.
Proof.
  rewrite monthlyValuesForChart_map. apply map_ext_in. intros [m l] Hin. cbn [fst snd].
  rewrite monthlyClimatology_pick; [done |].
  apply list_elem_of_In in Hin. unfold MONTH_LABELS in Hin.
  apply elem_of_zip_l in Hin. exact Hin.
Qed.

(** ** The map *)

(** X7: centerOn centres the map on the geometry and leaves the layers as
    they are; every non-zero zoom is passed on unchanged whatever its size
    (nothing is clamped); an absent, null, zero, empty or false zoom falls
    back to MAP_ZOOM; and the call of the script, centerOn(AOI, MAP_ZOOM),
    sets the zoom MAP_ZOOM for every MAP_ZOOM, zero included. *)
Theorem centerOn_zoom (P : Params) (geom : EE.Geometry) (zoom : JS.value) (st : MapState) :
  map_center (centerOn P geom zoom st) = Some geom /\
  map_layers (centerOn P geom zoom st) = map_layers st /\
  (forall z, z <> 0%Z -> map_zoom (centerOn P geom (JS.Num z) st) = JS.Num z) /\
  (zoom ∈ [JS.Undefined; JS.Null; JS.Num 0; JS.Str EmptyString; JS.Bool false] ->
   map_zoom (centerOn P geom zoom st) = JS.Num (MAP_ZOOM P)) /\
  map_zoom (centerOn P geom (JS.Num (MAP_ZOOM P)) st) = JS.Num (MAP_ZOOM P).
Proof.
  unfold centerOn, Map_centerObject, JS.or. cbn [map_center map_layers map_zoom].
  repeat split.
  - intros z Hz. cbn [JS.truthy]. by destruct (Z.eqb_spec z 0).
  - intros Hz. repeat (apply elem_of_cons in Hz as [-> | Hz]); try reflexivity.
    by apply elem_of_nil in Hz.
  - cbn [JS.truthy]. by destruct (Z.eqb_spec (MAP_ZOOM P) 0) as [-> |].
Qed.

Lemma string_append_assoc4 (a b c d e : string) :
  (((a +:+ b) +:+ c) +:+ d) +:+ e = a +:+ b +:+ c +:+ d +:+ e.
Proof. by rewrite !string_app_assoc. Qed.

Lemma updateMap_known (P : Params) (assets : EE.AssetStore) (catalog : EE.Catalog) (ui : UI) :
  updateMap P assets catalog ui
  = match JS.get (selVar ui) (VAR_TO_IC P catalog), JS.get (selVar ui) VAR_TO_BAND with
    | Some ic, Some band =>
        Some {| selVar := selVar ui; selMonth := selMonth ui;
                ui_map := Map_layers_reset
                            [aoiLayer P assets;
                             climatologyLayer P assets (selVar ui) band ic (selMonth ui)]
                            (ui_map ui) |}
    | _, _ => None
    end.
Proof.
  unfold updateMap, climatologyLayer, JS.concat.
  destruct (JS.get (selVar ui) (VAR_TO_IC P catalog)),
    (JS.get (selVar ui) VAR_TO_BAND); try done.
  by rewrite string_append_assoc4.
Qed.

(** The two tables of [updateMap] answer for the same labels. *)
Lemma tables_lookup (P : Params) (catalog : EE.Catalog) (vLabel : string) :
  ((vLabel ∈ JS.keys (VAR_TO_IC P catalog)) /\
   (exists band vis,
      JS.get vLabel (VAR_TO_IC P catalog)
      = Some (monthlyClimatology (ERA5x P catalog) band (JS.Str (metric P))) /\
      JS.get vLabel VAR_TO_BAND = Some band /\
      JS.get band VIZ = Some vis)) \/
  ((vLabel ∉ JS.keys (VAR_TO_IC P catalog)) /\
   JS.get vLabel (VAR_TO_IC P catalog) = None /\
   JS.get vLabel VAR_TO_BAND = None).
Proof.
  unfold JS.keys, VAR_TO_IC, VAR_TO_BAND, JS.get. cbn [map fold_left fst snd].
  destruct (String.eqb_spec "Max Air Temp (°C)" vLabel) as [<- | N4].
  { left. split; [apply list_elem_of_In; simpl; tauto |]. eexists _, _. repeat split. }
  destruct (String.eqb_spec "Min Air Temp (°C)" vLabel) as [<- | N3].
  { left. split; [apply list_elem_of_In; simpl; tauto |]. eexists _, _. repeat split. }
  destruct (String.eqb_spec "Avg Air Temp (°C)" vLabel) as [<- | N2].
  { left. split; [apply list_elem_of_In; simpl; tauto |]. eexists _, _. repeat split. }
  destruct (String.eqb_spec "Total Precipitation (mm)" vLabel) as [<- | N1].
  { left. split; [apply list_elem_of_In; simpl; tauto |]. eexists _, _. repeat split. }
  right. split; [| done]. intros H. apply list_elem_of_In in H. simpl in H. intuition.
Qed.

(** X8: updateMap succeeds exactly when the selected label is one of the keys
    of VAR_TO_IC (the items of the selector); it then keeps the selectors,
    the centre and the zoom, and replaces the layers by two: the AOI
    outline and the layer of the label's climatology, for the band that
    VAR_TO_BAND gives and with the visualization parameters VIZ has for that
    band; for a month of 1..12 that layer shows the composite of the month,
    clipped to the AOI, under a name ending in the month's label. *)
Theorem updateMap_layers (P : Params) (assets : EE.AssetStore) (catalog : EE.Catalog) (ui : UI) :
  (is_Some (updateMap P assets catalog ui) <-> selVar ui ∈ JS.keys (VAR_TO_IC P catalog)) /\
  (forall ui', updateMap P assets catalog ui = Some ui' ->
     selVar ui' = selVar ui /\ selMonth ui' = selMonth ui /\
     map_center (ui_map ui') = map_center (ui_map ui) /\
     map_zoom (ui_map ui') = map_zoom (ui_map ui) /\
     exists band vis,
       JS.get (selVar ui) VAR_TO_BAND = Some band /\
       JS.get band VIZ = Some vis /\
       map_layers (ui_map ui')
       = [aoiLayer P assets;
          climatologyLayer P assets (selVar ui) band
            (monthlyClimatology (ERA5x P catalog) band (JS.Str (metric P))) (selMonth ui)]) /\
  (forall vLabel band ic metric_,
     Forall (fun ml =>
       climatologyLayer P assets vLabel band (monthlyClimatology ic band metric_) (fst ml)
       = {| eeObject :=
              Shown (EE.Image_clip (AOI P assets)
                       (EE.Image_select [band] (monthlyClimatology_img ic band metric_ (fst ml))));
            visParams := JS.get band VIZ;
            layer_name := currentLayerName +:+ " — " +:+ vLabel +:+ " — " +:+ snd ml;
            shown := true |}) MONTH_LABELS).
Proof.
  split; [| split].
  - rewrite updateMap_known.
    destruct (tables_lookup P catalog (selVar ui))
      as [(Hin & band & vis & E1 & E2 & _) | (Hnin & E1 & E2)]; rewrite E1, ?E2.
    + split; [by intros _ | intros _; by eexists].
    + split; [by intros [? ?] | done].
  - intros ui'. rewrite updateMap_known.
    destruct (tables_lookup P catalog (selVar ui))
      as [(Hin & band & vis & E1 & E2 & Hvis) | (Hnin & E1 & E2)]; rewrite E1, ?E2; [| done].
    intros [= <-]. cbn [selVar selMonth ui_map Map_layers_reset map_center map_zoom map_layers].
    repeat split. by exists band, vis.
  - intros vLabel band ic metric_. apply Forall_forall. intros [m l] Hml.
    unfold climatologyLayer. cbn [fst snd].
    rewrite monthlyClimatology_pick by (by apply elem_of_zip_l in Hml).
    do 2 f_equal.
    unfold MONTH_LABELS, MONTHS, MONTH_NAMES in Hml. cbn [zip zip_with] in Hml.
    repeat (apply elem_of_cons in Hml as [[= -> ->] | Hml]; [reflexivity |]).
    by apply elem_of_nil in Hml.
Qed.

(** X9: updateMap is idempotent, and its result does not depend on the
    layers the map held before: they are reset, never accumulated. *)
Theorem updateMap_idempotent (P : Params) (assets : EE.AssetStore) (catalog : EE.Catalog) (ui : UI) :
  updateMap P assets catalog ui ≫= updateMap P assets catalog = updateMap P assets catalog ui /\
  (forall layers,
     updateMap P assets catalog
       {| selVar := selVar ui; selMonth := selMonth ui;
          ui_map := Map_layers_reset layers (ui_map ui) |}
     = updateMap P assets catalog ui).
Proof.
  split.
  - rewrite updateMap_known.
    destruct (JS.get (selVar ui) (VAR_TO_IC P catalog)) as [ic |] eqn:Eic; [| done].
    destruct (JS.get (selVar ui) VAR_TO_BAND) as [band |] eqn:Eband; [| done].
    cbn [mbind option_bind]. rewrite updateMap_known. cbn [selVar selMonth ui_map].
    by rewrite Eic, Eband.
  - intros layers. rewrite !updateMap_known. cbn [selVar selMonth ui_map].
    by destruct (JS.get (selVar ui) (VAR_TO_IC P catalog)), (JS.get (selVar ui) VAR_TO_BAND).
Qed.

(** X10: After the top level has run, the map is centred on the AOI at zoom
    MAP_ZOOM and holds exactly two layers: the AOI outline (added once, not
    twice) and the January precipitation climatology, clipped to the AOI,
    named 'Monthly Climatology — Total Precipitation (mm) — Jan'. *)
Theorem script_ui_layers (P : Params) (assets : EE.AssetStore) (catalog : EE.Catalog) :
  exists ui,
    script_ui P assets catalog = Some ui /\
    map_center (ui_map ui) = Some (AOI P assets) /\
    map_zoom (ui_map ui) = JS.Num (MAP_ZOOM P) /\
    map_layers (ui_map ui)
    = [aoiLayer P assets;
       {| eeObject :=
            Shown (EE.Image_clip (AOI P assets)
                     (EE.Image_select ["tp_mm"]
                        (monthlyClimatology_img (ERA5x P catalog) "tp_mm" (JS.Str (metric P)) 1)));
          visParams :=
            Some {| vis_min := Some 0%Z; vis_max := Some 800%Z; palette := PALETTE_BLUES |};
          layer_name := "Monthly Climatology — Total Precipitation (mm) — Jan";
          shown := true |}].
Proof.
  unfold script_ui. rewrite updateMap_known. cbn [selVar selMonth ui_map].
  change (JS.get "Total Precipitation (mm)" (VAR_TO_IC P catalog))
    with (Some (monthlyClimatology (ERA5x P catalog) "tp_mm" (JS.Str (metric P)))).
  change (JS.get "Total Precipitation (mm)" VAR_TO_BAND) with (Some "tp_mm").
  cbv beta iota. eexists. split; [reflexivity |].
  cbn [ui_map Map_layers_reset Map_addLayer map_center map_zoom map_layers].
  split; [done |]. split.
  - unfold centerOn, Map_centerObject, JS.or. cbn [map_zoom JS.truthy].
    by destruct (Z.eqb_spec (MAP_ZOOM P) 0) as [-> |].
  - unfold climatologyLayer.
    rewrite monthlyClimatology_pick by (apply list_elem_of_In; simpl; tauto).
    reflexivity.
Qed.

(** ** The calendar *)

Lemma days_from_civil_dec31 (y : Z) :
  (EE.days_from_civil y 12 31 + 1 = EE.days_from_civil (y + 1) 1 1)%Z.
Proof.
  unfold EE.days_from_civil. cbn [Z.leb Z.compare Pos.compare Pos.compare_cont]. cbv zeta.
  Z.to_euclidean_division_equations; lia.
Qed.

Lemma days_from_civil_mono (y1 y2 : Z) :
  (y1 <= y2)%Z -> (EE.days_from_civil y1 1 1 <= EE.days_from_civil y2 1 1)%Z.
Proof.
  unfold EE.days_from_civil. cbn [Z.leb Z.compare Pos.compare Pos.compare_cont]. cbv zeta.
  intros H. Z.to_euclidean_division_equations; lia.
Qed.

Lemma civil_from_days_bounds (z : Z) :
  (EE.days_from_civil (fst (EE.civil_from_days z)) 1 1 <= z
   < EE.days_from_civil (fst (EE.civil_from_days z) + 1) 1 1)%Z /\
  (1 <= snd (EE.civil_from_days z) <= 12)%Z.
Proof.
  unfold EE.civil_from_days, EE.days_from_civil.
  cbn [fst snd Z.leb Z.compare Pos.compare Pos.compare_cont]. cbv zeta.
  set (zz := (z + 719468)%Z).
  set (era := (zz / 146097)%Z).
  set (doe := (zz - era * 146097)%Z).
  set (yoe := ((doe - doe / 1460 + doe / 36524 - doe / 146096) / 365)%Z).
  set (doy := (doe - (365 * yoe + yoe / 4 - yoe / 100))%Z).
  set (mp := ((5 * doy + 2) / 153)%Z).
  assert (Hdoe : (0 <= doe < 146097)%Z)
    by (subst doe era; Z.to_euclidean_division_equations; lia).
  assert (Hyoe : (0 <= yoe <= 399)%Z)
    by (subst yoe; clearbody doe; clear -Hdoe; Z.to_euclidean_division_equations; lia).
  assert (Hdoy : (0 <= doy <= 365)%Z)
    by (subst doy yoe; clearbody doe; clear -Hdoe; Z.to_euclidean_division_equations; lia).
  assert (Hmp : (0 <= mp <= 11)%Z /\ (mp < 10 <-> doy < 306)%Z)
    by (subst mp; clearbody doy; clear -Hdoy; Z.to_euclidean_division_equations; lia).
  assert (Hz : (z = era * 146097 + doe - 719468)%Z) by (subst doe zz; lia).
  assert (Hd : (doe = 365 * yoe + yoe / 4 - yoe / 100 + doy)%Z) by (subst doy; lia).
  clearbody doy mp yoe doe era. clear zz.
  destruct (Z.ltb_spec mp 10) as [Hlt | Hge].
  - destruct (Z.leb_spec (mp + 3) 2); [lia |].
    split; [split; Z.to_euclidean_division_equations; lia | lia].
  - destruct (Z.leb_spec (mp - 9) 2); [| lia].
    split; [split; Z.to_euclidean_division_equations; lia | lia].
Qed.

Lemma civil_year_iff (z y : Z) :
  fst (EE.civil_from_days z) = y
  <-> (EE.days_from_civil y 1 1 <= z < EE.days_from_civil (y + 1) 1 1)%Z.
Proof.
  pose proof (civil_from_days_bounds z) as [Hb _]. split; [by intros <- |].
  intros Hy. set (y0 := fst (EE.civil_from_days z)) in *.
  destruct (Z.lt_trichotomy y0 y) as [Hlt | [Heq | Hgt]]; [| done |].
  - pose proof (days_from_civil_mono (y0 + 1) y ltac:(lia)). lia.
  - pose proof (days_from_civil_mono (y + 1) y0 ltac:(lia)). lia.
Qed.

Lemma civil_year_range (z a b : Z) :
  (a <= fst (EE.civil_from_days z) <= b)%Z
  <-> (EE.days_from_civil a 1 1 <= z < EE.days_from_civil (b + 1) 1 1)%Z.
Proof.
  pose proof (civil_from_days_bounds z) as [Hb _].
  set (y0 := fst (EE.civil_from_days z)) in *. split.
  - intros [Ha Hb'].
    pose proof (days_from_civil_mono a y0 Ha).
    pose proof (days_from_civil_mono (y0 + 1) (b + 1) ltac:(lia)). lia.
  - intros [Ha Hb']. split.
    + destruct (Z.le_gt_cases a y0) as [| Hgt]; [done |].
      pose proof (days_from_civil_mono (y0 + 1) a ltac:(lia)). lia.
    + destruct (Z.le_gt_cases y0 b) as [| Hgt]; [done |].
      pose proof (days_from_civil_mono (b + 1) y0 ltac:(lia)). lia.
Qed.

Lemma calendar_year_unfold (t : Z) :
  EE.calendar_field "year" t = Some (fst (EE.civil_from_days (t / EE.MS_PER_DAY))).
Proof. reflexivity. Qed.

Lemma calendar_month_unfold (t : Z) :
  EE.calendar_field "month" t = Some (snd (EE.civil_from_days (t / EE.MS_PER_DAY))).
Proof. reflexivity. Qed.

(** The date window of [ERA5] in terms of timestamps. *)
Lemma date_window (P : Params) (t : Z) :
  (startDate P <=? t)%Z && (t <? EE.Date_advance_day 1 (endDate P))%Z = true
  <-> (START_YEAR P <= fst (EE.civil_from_days (t / EE.MS_PER_DAY)) <= END_YEAR P)%Z.
Proof.
  rewrite civil_year_range, andb_true_iff, Z.leb_le, Z.ltb_lt.
  unfold startDate, endDate, EE.Date_advance_day, EE.Date_fromYMD.
  rewrite <- days_from_civil_dec31. unfold EE.MS_PER_DAY.
  generalize (EE.days_from_civil (START_YEAR P) 1 1) (EE.days_from_civil (END_YEAR P) 12 31).
  intros a b. Z.to_euclidean_division_equations; lia.
Qed.

(** ** The loaded series *)

Lemma filterDate_years (P : Params) (ic : EE.ImageCollection) :
  EE.ImageCollection_filterDate (startDate P) (EE.Date_advance_day 1 (endDate P)) ic
  = List.filter (fun img =>
      match image_year img with
      | Some y => (START_YEAR P <=? y)%Z && (y <=? END_YEAR P)%Z
      | None => false
      end) ic.
Proof.
  unfold EE.ImageCollection_filterDate, image_year. apply filter_ext. intros img.
  destruct (EE.time_start img) as [t |]; [| done]. cbn [mbind option_bind].
  rewrite calendar_year_unfold.
  apply eq_true_iff_eq. rewrite date_window, andb_true_iff, !Z.leb_le. done.
Qed.

Lemma time_start_select (names : list string) (img : EE.Image) :
  EE.time_start (EE.Image_select names img) = EE.time_start img.
Proof. reflexivity. Qed.

Lemma time_start_convert (img : EE.Image) :
  EE.time_start (ERA5x_convert img) = EE.time_start img.
Proof. unfold EE.time_start. by rewrite ERA5x_convert_get_time_start. Qed.

Lemma elem_of_calendar_filter (field : string) (c : Z) (ic : EE.ImageCollection) (x : EE.Image) :
  x ∈ EE.ImageCollection_filter (EE.Filter_calendarRange c c field) ic
  <-> x ∈ ic /\ (t ← EE.time_start x; EE.calendar_field field t) = Some c.
Proof.
  unfold EE.ImageCollection_filter. rewrite list_elem_of_In, filter_In, <- list_elem_of_In.
  apply and_iff_compat_l. unfold EE.Filter_passes.
  destruct (EE.time_start x) as [t |]; cbn [mbind option_bind]; [| done].
  destruct (EE.calendar_field field t) as [v |]; [| done].
  rewrite Z.leb_refl, andb_true_iff, !Z.leb_le. split; [intros; f_equal; lia | intros [= ->]; lia].
Qed.

Lemma ERA5_filter (P : Params) (catalog : EE.Catalog) :
  ERA5 P catalog
  = EE.ImageCollection_select
      ["total_precipitation"; "mean_2m_air_temperature"; "minimum_2m_air_temperature";
       "maximum_2m_air_temperature"; "u_component_of_wind_10m"; "v_component_of_wind_10m"]
      (List.filter (fun img =>
         match image_year img with
         | Some y => (START_YEAR P <=? y)%Z && (y <=? END_YEAR P)%Z
         | None => false
         end) (catalog "ECMWF/ERA5/MONTHLY")).
Proof. unfold ERA5. by rewrite filterDate_years. Qed.

Lemma ERA5x_dates (P : Params) (catalog : EE.Catalog) :
  Forall (fun x =>
    exists y m,
      image_year x = Some y /\ image_month x = Some m /\
      (START_YEAR P <= y <= END_YEAR P)%Z /\ (1 <= m <= 12)%Z) (ERA5x P catalog).
Proof.
  unfold ERA5x, EE.ImageCollection_map. rewrite ERA5_filter. unfold EE.ImageCollection_select.
  apply List.Forall_map, List.Forall_map, Forall_forall. intros img Himg.
  apply list_elem_of_In, filter_In in Himg as [_ Hy].
  unfold image_year, image_month in *. rewrite time_start_convert, time_start_select.
  destruct (EE.time_start img) as [t |]; [| done]. cbn [mbind option_bind] in *.
  rewrite calendar_year_unfold in *. rewrite calendar_month_unfold.
  apply andb_true_iff in Hy as [H1 H2]. apply Z.leb_le in H1, H2.
  eexists _, _. split; [done |]. split; [done |]. split; [lia |].
  apply civil_from_days_bounds.
Qed.

(** X11: The date window of the load covers exactly the calendar years
    START_YEAR..END_YEAR: ERA5 holds, with its six bands selected, the
    catalog images whose acquisition year lies in the range (and that have
    an acquisition time); the exclusive end, one day after December 31 of
    END_YEAR, is January 1 of END_YEAR + 1; with END_YEAR < START_YEAR
    nothing is loaded. *)
Theorem ERA5_calendar_years (P : Params) (catalog : EE.Catalog) :
  ERA5 P catalog
  = EE.ImageCollection_select
      ["total_precipitation"; "mean_2m_air_temperature"; "minimum_2m_air_temperature";
       "maximum_2m_air_temperature"; "u_component_of_wind_10m"; "v_component_of_wind_10m"]
      (List.filter (fun img =>
         match image_year img with
         | Some y => (START_YEAR P <=? y)%Z && (y <=? END_YEAR P)%Z
         | None => false
         end) (catalog "ECMWF/ERA5/MONTHLY")) /\
  EE.Date_advance_day 1 (endDate P) = EE.Date_fromYMD (END_YEAR P + 1) 1 1 /\
  ((END_YEAR P < START_YEAR P)%Z -> ERA5 P catalog = []).
Proof.
  split; [apply ERA5_filter |]. split.
  - unfold endDate, EE.Date_advance_day, EE.Date_fromYMD, EE.MS_PER_DAY.
    rewrite <- days_from_civil_dec31. lia.
  - intros Hinv. rewrite ERA5_filter.
    induction (catalog "ECMWF/ERA5/MONTHLY") as [| img l IH]; [done |].
    cbn [List.filter]. destruct (image_year img) as [y |]; [| exact IH].
    destruct (Z.leb_spec (START_YEAR P) y), (Z.leb_spec y (END_YEAR P));
      cbn [andb]; (exact IH || lia).
Qed.

(** X12: Every image of the converted series falls in exactly one yearly
    group of annualSeries, for a year of START_YEAR..END_YEAR, and in
    exactly one monthly group of monthlyClimatology, for a month of 1..12:
    no loaded image is left out of the aggregations or counted twice. *)
Theorem ERA5x_one_group_each (P : Params) (catalog : EE.Catalog) :
  Forall (fun x =>
    exists y m,
      (START_YEAR P <= y <= END_YEAR P)%Z /\ (1 <= m <= 12)%Z /\
      (forall y', x ∈ year_images (ERA5x P catalog) y' <-> y' = y) /\
      (forall m',
         x ∈ EE.ImageCollection_filter (EE.Filter_calendarRange m' m' "month") (ERA5x P catalog)
         <-> m' = m)) (ERA5x P catalog).
Proof.
  pose proof (ERA5x_dates P catalog) as Hall.
  rewrite Forall_forall in Hall. apply Forall_forall. intros x Hx.
  destruct (Hall x Hx) as (y & m & Hy & Hm & Hyr & Hmr).
  exists y, m. split; [done |]. split; [done |]. split.
  - intros y'. unfold year_images. rewrite elem_of_calendar_filter.
    fold (image_year x). rewrite Hy. split; [by intros [_ [= ->]] | by intros ->].
  - intros m'. rewrite elem_of_calendar_filter.
    fold (image_month x). rewrite Hm. split; [by intros [_ [= ->]] | by intros ->].
Qed.

(** ** Bands of the converted images *)

(** X13: For an image that has the six raw bands (and possibly others)
    the converted image has exactly the six bands tp_mm, tmean_C, tmin_C,
    tmax_C, u10, v10, in this order: every other band of the input is left
    behind and no band keeps a raw name. *)
Theorem ERA5x_convert_band_names (img : EE.Image) :
  Forall (fun sd => is_Some (EE.band_lookup (fst sd) img)) CONVERSIONS ->
  map fst (EE.bands (ERA5x_convert img)) = ["tp_mm"; "tmean_C"; "tmin_C"; "tmax_C"; "u10"; "v10"] /\
  Forall (fun sd => EE.band_lookup (fst sd) (ERA5x_convert img) = None) CONVERSIONS.
Proof.
  intros Hall.
  assert (B : forall name, EE.band_lookup name (ERA5x_convert img)
              = snd <$> List.find (fun b => String.eqb (fst b) name) (EE.bands (ERA5x_convert img)))
    by done.
  unfold CONVERSIONS in *.
  rewrite !Forall_cons in Hall. cbn [fst] in Hall.
  destruct Hall as ([? E1] & [? E2] & [? E3] & [? E4] & [? E5] & [? E6] & _).
  split.
  - rewrite ERA5x_convert_bands. cbn [map concat]. rewrite E1, E2, E3, E4, E5, E6. reflexivity.
  - repeat constructor; cbn [fst]; rewrite B, ERA5x_convert_bands;
      cbn [map concat]; rewrite E1, E2, E3, E4, E5, E6; reflexivity.
Qed.

(** Witness for X13: the example image has the six raw bands. *)
Lemma ERA5x_convert_band_names_witness :
  map fst (EE.bands (ERA5x_convert raw_example))
  = ["tp_mm"; "tmean_C"; "tmin_C"; "tmax_C"; "u10"; "v10"] /\
  Forall (fun sd => EE.band_lookup (fst sd) (ERA5x_convert raw_example) = None) CONVERSIONS.
Proof.
  apply (ERA5x_convert_band_names raw_example).
  unfold CONVERSIONS. repeat constructor; by eexists.
Defined.

(** ** The monthly composites *)

Lemma monthlyClimatology_img_reduce (ic : EE.ImageCollection) (band : string) (metric : JS.value)
    (m : Z) :
  monthlyClimatology_img ic band metric m
  = EE.Image_set "metric" (EE.encode metric)
      (EE.Image_set "band" (EE.VStr band)
         (EE.Image_set "month" (EE.Number m)
            (EE.Image_rename [band]
               (EE.ImageCollection_reduce (climatology_reducer metric)
                  (EE.ImageCollection_select [band] (month_images ic m)))))).
Proof.
  unfold monthlyClimatology_img, climatology_reducer, JS.strict_eq, month_images. cbv zeta.
  destruct (decide (metric = JS.Str "median")) as [-> | Hne].
  - reflexivity.
  - by rewrite bool_decide_eq_false_2.
Qed.

Lemma omap_Forall_is_Some {A B : Type} (f : A -> option B) (l : list A) :
  Forall (fun a => is_Some (f a)) l ->
  Forall2 (fun a b => f a = Some b) l (omap f l).
Proof.
  induction 1 as [| a l [b Hb] _ IH]; [constructor |].
  cbn [omap list_omap]. rewrite Hb. by constructor.
Qed.

(** X15: For a calendar month m that has images, all of them with the band
    asked for, the composite of month m has exactly one band, named as
    asked and holding the pixel-wise reduction of the rasters of that band
    of the month's images, one raster per image in the order of the series:
    their median when the metric is 'median', their mean for every other
    metric. *)
Theorem monthlyClimatology_img_contents (ic : EE.ImageCollection) (band : string)
    (metric : JS.value) (m : Z) :
  month_images ic m <> [] ->
  Forall (fun img => is_Some (EE.band_lookup band img)) (month_images ic m) ->
  exists rasters,
    Forall2 (fun img r => EE.band_lookup band img = Some r) (month_images ic m) rasters /\
    EE.bands (monthlyClimatology_img ic band metric m)
    = [(band, EE.reduce_stack
                (if decide (metric = JS.Str "median") then EE.Reducer_median
                 else EE.Reducer_mean) rasters)].
Proof.
  intros Hne Hall. exists (omap (EE.band_lookup band) (month_images ic m)).
  split; [by apply omap_Forall_is_Some |].
  rewrite monthlyClimatology_img_reduce. cbn [EE.Image_set EE.bands].
  rewrite <- (omap_band_lookup_select band (month_images ic m)).
  destruct (month_images ic m) as [| i0 rest]; [done |].
  apply Forall_cons in Hall as [[r0 E0] _].
  change (EE.ImageCollection_select [band] (i0 :: rest))
    with (EE.Image_select [band] i0 :: EE.ImageCollection_select [band] rest).
  rewrite bands_rename_reduce, bands_select_single, E0. reflexivity.
Qed.

(** Witness for X15: the two images of January 2000, under the median. *)
Lemma monthlyClimatology_img_contents_witness :
  exists rasters,
    Forall2 (fun img r => EE.band_lookup "tp_mm" img = Some r)
      (month_images two_january_images 1) rasters /\
    EE.bands (monthlyClimatology_img two_january_images "tp_mm" (JS.Str "median") 1)
    = [("tp_mm", EE.reduce_stack
                   (if decide (JS.Str "median" = JS.Str "median") then EE.Reducer_median
                    else EE.Reducer_mean) rasters)].
Proof.
  apply (monthlyClimatology_img_contents two_january_images "tp_mm" (JS.Str "median") 1).
  - vm_compute. discriminate.
  - vm_compute. repeat (constructor; [by eexists |]). constructor.
Defined.
